(** * Air quality dashboard: feature derivation and the simple AQI

    A shallow embedding of the computational core of [dashboard.py]:
    - [load_data]: the forward fill of missing values and the season
      label obtained by binning the month;
    - [calculate_simple_aqi]: the largest of three pollutant ratios;
    - [classify_aqi]: the five-way classification of that ratio;
    - [main]: the pages of the sidebar and the view each one opens;
    - [show_time_patterns]: the best and the worst hour and day;
    - [show_yearly_trends]: the category of a day, the change from 2013 to
      2017 with the colour of its bar, and the days above a limit by year.

    Rows and limit tables are Python mappings, modelled as [gmap string];
    a failed subscript raises [KeyError], modelled in an error monad. *)

From Stdlib Require Import ZArith QArith Qreduction Qround Lia Lqa List.
From stdpp Require Import base option list strings pretty gmap.

Open Scope string_scope.

(** ** Numbers

    The values handled by the scorer are the [float64] elements of a
    pandas row.  Finite values are carried as exact rationals: neither
    rounding nor overflow to an infinity is modelled, and zero is the
    positive zero (the negative zero, which compares equal to it but
    divides to the opposite infinity, is not represented).  The three
    special values are kept, because division and comparison treat them in
    their own way. *)
Module Float.

Inductive float : Type :=
  | NaN
  | NInf
  | Fin (q : Q)
  | PInf.

(** A Python [int] (the limits of [who_limits], the literals of
    [classify_aqi]) taking part in float arithmetic. *)
Definition of_int (z : Z) : float := Fin (inject_Z z).

Definition is_nan (a : float) : bool :=
  match a with NaN => true | _ => false end.

(** [a <= b]: every comparison with NaN is false. *)
Definition fle (a b : float) : bool :=
  match a, b with
  | NaN, _ | _, NaN => false
  | NInf, _ => true
  | _, PInf => true
  | Fin x, Fin y => Qle_bool x y
  | Fin _, NInf => false
  | PInf, _ => false
  end.

(** [a < b]. *)
Definition flt (a b : float) : bool :=
  match a, b with
  | NaN, _ | _, NaN => false
  | NInf, NInf => false
  | NInf, _ => true
  | PInf, _ => false
  | Fin x, Fin y => negb (Qle_bool y x)
  | Fin _, PInf => true
  | Fin _, NInf => false
  end.

(** [a > b] is the mirrored comparison. *)
Definition fgt (a b : float) : bool := flt b a.

(** [a / b] on numpy scalars: a zero divisor gives an infinity or NaN
    (with a warning, which the program silences), never an exception. *)
Definition fdiv (a b : float) : float :=
  match a, b with
  | NaN, _ | _, NaN => NaN
  | Fin x, Fin y =>
      if Qeq_bool y 0 then
        if negb (Qle_bool x 0) then PInf
        else if negb (Qle_bool 0 x) then NInf
        else NaN
      else Fin (Qred (x / y))
  | Fin _, (PInf | NInf) => Fin 0
  | PInf, Fin y => if Qle_bool 0 y then PInf else NInf
  | NInf, Fin y => if Qle_bool 0 y then NInf else PInf
  | (PInf | NInf), (PInf | NInf) => NaN
  end.

(** The builtin [max(x, *xs)]: the first argument is kept until a later
    one compares strictly greater. *)
Definition py_max (x : float) (xs : list float) : float :=
  fold_left (fun m item => if fgt item m then item else m) xs x.

End Float.
Import Float.

(** ** Exceptions and results *)

Inductive exn : Type :=
  | KeyError (key : string)
  | ValueError (msg : string)
  | TypeError (msg : string).

(** The class name under which an exception is reported. *)
Definition exn_class (e : exn) : string :=
  match e with
  | KeyError _ => "KeyError"
  | ValueError _ => "ValueError"
  | TypeError _ => "TypeError"
  end.

Inductive result (A : Type) : Type :=
  | Ok (a : A)
  | Raise (e : exn).
Arguments Ok {A} a.
Arguments Raise {A} e.

#[global] Instance result_bind : MBind result := fun A B k r =>
  match r with
  | Ok a => k a
  | Raise e => Raise e
  end.

(** Subscripting [d[key]] of a dict or of a row. *)
Definition getitem {V : Type} (d : gmap string V) (key : string) : result V :=
  match d !! key with
  | Some v => Ok v
  | None => Raise (KeyError key)
  end.

(** ** The AQI scorer *)

Definition calculate_simple_aqi (row who_limits : gmap string float) : result float :=
  a ← getitem row "PM2.5";
  la ← getitem who_limits "PM2.5";
  let pm25_aqi := fdiv a la in
  b ← getitem row "PM10";
  lb ← getitem who_limits "PM10";
  let pm10_aqi := fdiv b lb in
  c ← getitem row "NO2";
  lc ← getitem who_limits "NO2";
  let no2_aqi := fdiv c lc in
  Ok (py_max pm25_aqi [pm10_aqi; no2_aqi]).

Definition classify_aqi (aqi : float) : string :=
  if fle aqi (of_int 1) then "Good"
  else if fle aqi (of_int 2) then "Moderate"
  else if fle aqi (of_int 3) then "Unhealthy for Sensitive Groups"
  else if fle aqi (of_int 4) then "Unhealthy"
  else "Very Unhealthy".

(** The table of [main]. *)
Definition who_limits : gmap string float :=
  <["PM2.5" := of_int 25]> (<["PM10" := of_int 50]> (<["NO2" := of_int 40]>
  (<["SO2" := of_int 20]> (<["O3" := of_int 100]> ∅)))).

(** ** Data frames

    A frame is a mapping from column names to columns; a cell is missing
    (NaN, None or NaT: [None]) or holds a number, a string or a timestamp.
    Numeric columns are carried as rationals, whether pandas stores them as
    [int64] or as [float64]. *)

Inductive scalar : Type :=
  | SNum (q : Q)
  | SStr (s : string)
  | STime (t : Z).

Abbreviation cell := (option scalar).
Abbreviation column := (list (option scalar)).
Abbreviation DataFrame := (gmap string (list (option scalar))).

(** *** [fillna(method='ffill')]

    Down a column, a missing cell takes the last valid observation seen
    so far, if there is one. *)
Fixpoint ffill_from {A : Type} (last : option A) (col : list (option A))
  : list (option A) :=
  match col with
  | [] => []
  | c :: rest =>
      let v := match c with Some x => Some x | None => last end in
      v :: ffill_from v rest
  end.

Definition ffill {A : Type} (col : list (option A)) : list (option A) :=
  ffill_from None col.

(** On a frame the fill runs down every column independently. *)
Definition fillna_ffill (df : DataFrame) : DataFrame := ffill <$> df.

(** *** [pd.cut]

    [searchsorted(side='left')]: the number of edges strictly below [x],
    the edges being increasing. *)
Fixpoint searchsorted_left (bins : list Q) (x : Q) : nat :=
  match bins with
  | [] => O
  | b :: rest => if negb (Qle_bool x b) then S (searchsorted_left rest x) else O
  end.

(** [pd.cut(x, bins, labels, right=True, include_lowest)] at one number:
    the intervals are open on the left and closed on the right, the first
    one is closed on both sides under [include_lowest], and a number in no
    interval gets no label. *)
Definition pd_cut (bins : list Q) (labels : list string) (include_lowest : bool)
    (x : Q) : option string :=
  let ids := searchsorted_left bins x in
  let ids :=
    match bins with
    | b0 :: _ => if include_lowest && Qeq_bool x b0 then 1%nat else ids
    | [] => ids
    end in
  if (ids =? 0)%nat || (ids =? length bins)%nat then None
  else labels !! (ids - 1)%nat.

(** The season of a month, as [load_data] bins it. *)
Definition season_of_month (month : Q) : option string :=
  pd_cut (inject_Z <$> [0; 3; 6; 9; 12]%Z) ["Winter"; "Spring"; "Summer"; "Fall"] true month.

(** The same on a cell of the month column: a missing month has no season,
    and a cell that is not a number cannot be compared with the edges. *)
Definition season_of_cell (c : cell) : result cell :=
  match c with
  | None => Ok None
  | Some (SNum q) => Ok (SStr <$> season_of_month q)
  | Some _ => Raise (TypeError "'<' not supported between instances of 'int' and 'str'")
  end.

(** Running a fallible cell function down a column: the first failure
    aborts. *)
Fixpoint traverse {A B : Type} (f : A -> result B) (l : list A) : result (list B) :=
  match l with
  | [] => Ok []
  | a :: rest => b ← f a; bs ← traverse f rest; Ok (b :: bs)
  end.

Definition day_names : list string :=
  ["Monday"; "Tuesday"; "Wednesday"; "Thursday"; "Friday"; "Saturday"; "Sunday"].

(** [Series.map(dict(zip(range(7), day_names)))]: a key outside the dict
    maps to a missing value. *)
Definition day_name_of_cell (c : cell) : cell :=
  match c with
  | Some (SNum q) =>
      if Qeq_bool (inject_Z (Qfloor q)) q && (0 <=? Qfloor q)%Z
      then SStr <$> day_names !! Z.to_nat (Qfloor q)
      else None
  | _ => None
  end.

(** The text of a list of strings, as Python prints it. *)
Definition py_repr_list (l : list string) : string :=
  "[" +:+ String.concat ", " ((fun s => "'" +:+ s +:+ "'") <$> l) +:+ "]".

(** Subscripting a frame with a list of column names, [df[[...]]]: one
    [KeyError] for all the names that are not columns. *)
Definition getitem_list (df : DataFrame) (keys : list string)
  : result (list column) :=
  let missing :=
    List.filter (fun k => negb (bool_decide (is_Some (df !! k)))) keys in
  match missing with
  | [] => Ok ((fun k => default [] (df !! k)) <$> keys)
  | _ :: _ =>
      Raise (KeyError
               (if bool_decide (missing = keys)
                then "None of [Index(" +:+ py_repr_list keys
                     +:+ ", dtype='object')] are in the [columns]"
                else py_repr_list missing +:+ " not in index"))
  end.

(** The rows of the frame of the four time columns. *)
Definition time_rows (cols : list column) : list (cell * cell * cell * cell) :=
  match cols with
  | [ycol; mcol; dcol; hcol] => zip (zip (zip ycol mcol) dcol) hcol
  | _ => []
  end.

Section LoadData.

(** The calendar arithmetic of pandas is outside the program: assembling
    the timestamp of a row from its year, month, day and hour cells either
    fails ([None]: [ValueError]) or gives a timestamp or NaT; [dayofweek]
    is the weekday of a timestamp, Monday being 0. *)
Variable assemble : cell -> cell -> cell -> cell -> option (option Z).
Variable dayofweek : Z -> Z.

Definition to_datetime_row (r : cell * cell * cell * cell) : result cell :=
  let '(y, m, d, h) := r in
  match assemble y m d h with
  | Some t => Ok (STime <$> t)
  | None => Raise (ValueError "cannot assemble the datetimes")
  end.

Definition dayofweek_of_cell (c : cell) : cell :=
  match c with
  | Some (STime t) => Some (SNum (inject_Z (dayofweek t)))
  | _ => None
  end.

(** [load_data], from the frame that [read_csv] returns. *)
Definition load_data (csv : DataFrame) : result DataFrame :=
  let tiantan_df := fillna_ffill csv in
  time_columns ← getitem_list tiantan_df ["year"; "month"; "day"; "hour"];
  datetime ← traverse to_datetime_row (time_rows time_columns);
  let tiantan_df := <["datetime" := datetime]> tiantan_df in
  month ← getitem tiantan_df "month";
  season ← traverse season_of_cell month;
  let tiantan_df := <["season" := season]> tiantan_df in
  dt ← getitem tiantan_df "datetime";
  let day_of_week : column := dayofweek_of_cell <$> dt in
  let tiantan_df := <["day_of_week" := day_of_week]> tiantan_df in
  dow ← getitem tiantan_df "day_of_week";
  let day_name : column := day_name_of_cell <$> dow in
  let tiantan_df := <["day_name" := day_name]> tiantan_df in
  Ok tiantan_df.

End LoadData.

(** ** Vocabulary of the statements, and sample inputs *)

Definition categories : list string :=
  ["Good"; "Moderate"; "Unhealthy for Sensitive Groups"; "Unhealthy";
   "Very Unhealthy"].

(** The ratio of one pollutant, when both tables have it. *)
Definition ratio (row limits : gmap string float) (p : string) : option float :=
  x ← row !! p; l ← limits !! p; Some (fdiv x l).

(** [v] is the greatest ratio among the pollutants selected by [P]. *)
Definition is_max_ratio (P : string -> Prop) (row limits : gmap string float)
    (v : float) : Prop :=
  (exists p, P p /\ ratio row limits p = Some v) /\
  (forall p r, P p -> ratio row limits p = Some r -> fle r v = true).

(** The value as the specification words it: the maximum over every key of
    the limits table. *)
Definition max_over_limit_keys (row limits : gmap string float) (v : float)
  : Prop :=
  is_max_ratio (fun p => is_Some (limits !! p)) row limits v.

(** The pollutants that [calculate_simple_aqi] reads. *)
Definition scored : list string := ["PM2.5"; "PM10"; "NO2"].

(** The first pollutant, in the order in which the scorer reads them, that
    the aggregate or the limits table lacks. *)
Definition first_absent (row limits : gmap string float) (k : string) : Prop :=
  exists before after,
    scored = (before ++ k :: after)%list /\
    (forall k', In k' before ->
       is_Some (row !! k') /\ is_Some (limits !! k')) /\
    (row !! k = None \/ limits !! k = None).

(** The limits of the three scored pollutants are positive. *)
Definition limits_positive (limits : gmap string float) : Prop :=
  forall k, In k scored ->
    exists l, limits !! k = Some l /\ flt (of_int 0) l = true.


(** The aggregate and the limits of the worked example. *)
Definition example_aggregate : gmap string float :=
  <["PM2.5" := of_int 50]> (<["PM10" := of_int 50]> (<["NO2" := of_int 20]> ∅)).

Definition example_limits : gmap string float :=
  <["PM2.5" := of_int 25]> (<["PM10" := of_int 50]> (<["NO2" := of_int 40]> ∅)).

(** A day with little particulate matter and much sulphur dioxide. *)
Definition so2_day : gmap string float :=
  <["PM2.5" := of_int 10]> (<["PM10" := of_int 20]> (<["SO2" := of_int 200]>
  (<["NO2" := of_int 20]> (<["CO" := of_int 900]> (<["O3" := of_int 50]> ∅))))).

(** A day with the three scored pollutants only. *)
Definition clear_day : gmap string float :=
  <["PM2.5" := of_int 10]> (<["PM10" := of_int 20]> (<["NO2" := of_int 20]> ∅)).




(** A column with a leading gap and a gap after a valid observation. *)
Definition gap_column : column :=
  [None; Some (SNum 3); None; None; Some (SNum 5)].

Definition gap_frame : DataFrame := <["PM2.5" := gap_column]> ∅.

(** A file of one row, with the given month. *)
Definition one_row_csv (month : Z) : DataFrame :=
  <["year" := [Some (SNum 2013)]]> (<["month" := [Some (SNum (inject_Z month))]]>
  (<["day" := [Some (SNum 1)]]> (<["hour" := [Some (SNum 0)]]>
  (<["PM2.5" := [Some (SNum 12)]]> ∅)))).

(** ** Daily categories

    The rank of a category in the order in which [classify_aqi] tests for
    them, from Good (0) to Very Unhealthy (4). *)
Fixpoint index_of (s : string) (l : list string) : nat :=
  match l with
  | [] => O
  | x :: rest => if String.eqb s x then O else S (index_of s rest)
  end.

Definition severity (category : string) : nat := index_of category categories.

(** The two [apply] calls of [show_yearly_trends] on one day of
    [daily_data]: the score of the row, then its category. *)
Definition daily_aqi_category (row limits : gmap string float) : result string :=
  aqi ← calculate_simple_aqi row limits;
  Ok (classify_aqi aqi).

(** ** Derived columns, and stand-ins for the calendar *)

(** The columns that [load_data] adds to the frame. *)
Definition derived_columns : list string :=
  ["datetime"; "season"; "day_of_week"; "day_name"].

(** A calendar for the sample runs: the timestamp of a complete row is its
    hour count, an incomplete row has none, and no row is rejected; the
    weekday of a timestamp is its remainder modulo 7. *)
Definition sample_assemble (y m d h : cell) : option (option Z) :=
  match y, m, d, h with
  | Some (SNum _), Some (SNum _), Some (SNum _), Some (SNum q) =>
      Some (Some (Qfloor q))
  | _, _, _, _ => Some None
  end.

Definition sample_dayofweek (t : Z) : Z := (t mod 7)%Z.

(** The same calendar with the month checked: a row whose month is a
    number other than a whole number from 1 to 12 is rejected. *)
Definition month_checked_assemble (y m d h : cell) : option (option Z) :=
  match m with
  | Some (SNum q) =>
      if Qeq_bool (inject_Z (Qfloor q)) q && (1 <=? Qfloor q)%Z
         && (Qfloor q <=? 12)%Z
      then sample_assemble y m d h
      else None
  | _ => sample_assemble y m d h
  end.

(** A file of three rows whose second month is missing. *)
Definition gap_month_csv : DataFrame :=
  <["year" := [Some (SNum 2013); Some (SNum 2013); Some (SNum 2013)]]>
  (<["month" := [Some (SNum 4); None; Some (SNum 7)]]>
  (<["day" := [Some (SNum 30); Some (SNum 30); Some (SNum 1)]]>
  (<["hour" := [Some (SNum 22); Some (SNum 23); Some (SNum 0)]]>
  (<["PM2.5" := [None; Some (SNum 12); None]]> ∅)))).

(** ** The pages of [main]

    The choices of the sidebar, the views, and the chain of tests that
    opens the view of the selected page. *)
Definition pages : list string :=
  ["Pendahuluan";
   "Q1: Variasi Polusi per Musim";
   "Q2: Hubungan Cuaca & Kualitas Udara";
   "Q3: Pola Polusi Harian & Jam";
   "Q4: Tren Kualitas Udara 2013-2017"].

Inductive view : Type :=
  | show_introduction
  | show_seasonal_variation
  | show_weather_relationship
  | show_time_patterns
  | show_yearly_trends.

Definition page_content (selected_page : string) : option view :=
  if String.eqb selected_page "Pendahuluan" then Some show_introduction
  else if String.eqb selected_page "Q1: Variasi Polusi per Musim"
  then Some show_seasonal_variation
  else if String.eqb selected_page "Q2: Hubungan Cuaca & Kualitas Udara"
  then Some show_weather_relationship
  else if String.eqb selected_page "Q3: Pola Polusi Harian & Jam"
  then Some show_time_patterns
  else if String.eqb selected_page "Q4: Tren Kualitas Udara 2013-2017"
  then Some show_yearly_trends
  else None.

(** The page that opens a view. *)
Definition page_of (v : view) : string :=
  match v with
  | show_introduction => "Pendahuluan"
  | show_seasonal_variation => "Q1: Variasi Polusi per Musim"
  | show_weather_relationship => "Q2: Hubungan Cuaca & Kualitas Udara"
  | show_time_patterns => "Q3: Pola Polusi Harian & Jam"
  | show_yearly_trends => "Q4: Tren Kualitas Udara 2013-2017"
  end.

(** ** Yearly figures of [show_yearly_trends]

    Subtraction and multiplication of floats, with the special values. *)
Definition fsub (a b : float) : float :=
  match a, b with
  | NaN, _ | _, NaN => NaN
  | Fin x, Fin y => Fin (Qred (x - y))
  | Fin _, PInf => NInf
  | Fin _, NInf => PInf
  | PInf, PInf => NaN
  | PInf, _ => PInf
  | NInf, NInf => NaN
  | NInf, _ => NInf
  end.

Definition fmul (a b : float) : float :=
  match a, b with
  | NaN, _ | _, NaN => NaN
  | Fin x, Fin y => Fin (Qred (x * y))
  | Fin x, PInf | PInf, Fin x =>
      if negb (Qle_bool x 0) then PInf
      else if negb (Qle_bool 0 x) then NInf
      else NaN
  | Fin x, NInf | NInf, Fin x =>
      if negb (Qle_bool x 0) then NInf
      else if negb (Qle_bool 0 x) then PInf
      else NaN
  | PInf, PInf | NInf, NInf => PInf
  | PInf, NInf | NInf, PInf => NInf
  end.

(** Rounding to the nearest integer, a tie going to the even one. *)
Definition round_half_even (q : Q) : Z :=
  let f := Qfloor q in
  match Qcompare (q - inject_Z f) (1 # 2) with
  | Lt => f
  | Gt => (f + 1)%Z
  | Eq => if Z.even f then f else (f + 1)%Z
  end.

(** [.round(decimals)]: scale, round, scale back; the special values are
    left as they are.  The exact value is rounded: where the exact value
    lies within a rounding error of a tie, the [float64] computation can
    end on the neighbouring last decimal. *)
Definition np_round (decimals : nat) (a : float) : float :=
  match a with
  | Fin q =>
      let scale := inject_Z (10 ^ Z.of_nat decimals) in
      Fin (Qred (inject_Z (round_half_even (q * scale)) / scale))
  | _ => a
  end.

(** [groupby('year').size()]: the number of rows of each year that has
    rows. *)
Definition size_by_year (years : list Z) : gmap Z nat :=
  foldr (fun y sizes => <[y := S (default O (sizes !! y))]> sizes) ∅ years.

(** The years of the rows kept by the mask [daily_data[pollutant] > limit]. *)
Definition years_above (years : list Z) (col : list float) (limit : float)
  : list Z :=
  fst <$> List.filter (fun row => fgt (snd row) limit) (zip years col).

(** Division of two series: the labels are aligned, and a label that one
    side lacks gets NaN. *)
Definition series_div (a b : gmap Z float) : gmap Z float :=
  merge (fun x y =>
           match x, y with
           | Some u, Some v => Some (fdiv u v)
           | None, None => None
           | _, _ => Some NaN
           end) a b.

(** The body of the loop over [who_limits.items()], for one pollutant
    column of the frame of daily means: the percentage of days of each year
    above the limit. *)
Definition yearly_percentage (years : list Z) (col : list float) (limit : float)
  : gmap Z float :=
  let yearly_counts : gmap Z float :=
    (fun n => of_int (Z.of_nat n)) <$> size_by_year (years_above years col limit) in
  let yearly_total : gmap Z float :=
    (fun n => of_int (Z.of_nat n)) <$> size_by_year years in
  (fun v => np_round 1 (fmul v (of_int 100)))
    <$> series_div yearly_counts yearly_total.

Definition exceeding_days_of (years : list Z) (daily_data : gmap string (list float))
    (pollutant : string) (limit : float) : result (gmap Z float) :=
  col ← getitem daily_data pollutant;
  Ok (yearly_percentage years col limit).

(** [yearly_avg.loc[year]], on the yearly means of one pollutant. *)
Definition loc (yearly_avg : gmap Z float) (year : Z) : result float :=
  match yearly_avg !! year with
  | Some v => Ok v
  | None => Raise (KeyError (pretty year))
  end.

(** The change from 2013 to 2017 in percent, and the colour of its bar. *)
Definition pct_change (yearly_avg : gmap Z float) : result float :=
  a17 ← loc yearly_avg 2017;
  a13 ← loc yearly_avg 2013;
  base ← loc yearly_avg 2013;
  Ok (np_round 2 (fmul (fdiv (fsub a17 a13) base) (of_int 100))).

Definition bar_color (v : float) : string :=
  if flt v (of_int 0) then "green" else "red".

(** Four days of 2015 and two of 2016, for the sample runs. *)
Definition sample_years : list Z := [2015; 2015; 2015; 2015; 2016; 2016]%Z.

Definition sample_pm10 : list float :=
  [of_int 80; of_int 50; NaN; of_int 51; of_int 20; of_int 50].

(** ** Best and worst times of [show_time_patterns]

    A series of means is a list of labelled values in the order of its
    index; a mean is a number or missing.  [idxmin] and [idxmax] pass over
    the missing values and return the label of the first extreme value.  A
    series without rows has no extreme: the search raises a [ValueError].
    A series with rows, all of them missing, gives a missing label. *)
Fixpoint idx_extreme_from {L : Type} (better : Q -> Q -> bool)
    (best : option (L * Q)) (s : list (L * option Q)) : option (L * Q) :=
  match s with
  | [] => best
  | (_, None) :: rest => idx_extreme_from better best rest
  | (l, Some v) :: rest =>
      match best with
      | None => idx_extreme_from better (Some (l, v)) rest
      | Some (_, b) =>
          if better v b then idx_extreme_from better (Some (l, v)) rest
          else idx_extreme_from better best rest
      end
  end.

Definition idxmin {L : Type} (s : list (L * option Q)) : result (option L) :=
  match s with
  | [] => Raise (ValueError "attempt to get argmin of an empty sequence")
  | _ :: _ =>
      Ok (fst <$> idx_extreme_from (fun v b => negb (Qle_bool b v)) None s)
  end.

Definition idxmax {L : Type} (s : list (L * option Q)) : result (option L) :=
  match s with
  | [] => Raise (ValueError "attempt to get argmax of an empty sequence")
  | _ :: _ =>
      Ok (fst <$> idx_extreme_from (fun v b => negb (Qle_bool v b)) None s)
  end.

(** [reindex(labels)]: the series in the order of the labels, a label
    without a mean getting a missing value. *)
Definition reindex (means : gmap string Q) (labels : list string)
  : list (string * option Q) :=
  (fun l => (l, means !! l)) <$> labels.

(** The day with the lowest mean of one pollutant, from the means by day
    name.  The series has the seven rows of [day_names], also when no day
    has a mean. *)
Definition best_day (daily_patterns : gmap string Q)
  : result (option string) :=
  idxmin (reindex daily_patterns day_names).

(** * Properties *)

(** ** Comparisons and division *)

Section FloatFacts.

Lemma fle_Fin (x y : Q) : fle (Fin x) (Fin y) = true <-> (x <= y)%Q.
Proof. simpl. apply Qle_bool_iff. Qed.

Lemma flt_Fin (x y : Q) : flt (Fin x) (Fin y) = true <-> (x < y)%Q.
Proof.
  simpl. rewrite negb_true_iff.
  destruct (Qle_bool y x) eqn:E.
  - apply Qle_bool_iff in E. split; [discriminate | lra].
  - split; [intros _ | reflexivity].
    destruct (Qlt_le_dec x y) as [H | H]; [exact H |].
    apply Qle_bool_iff in H. congruence.
Qed.

Lemma fle_Fin_false (x y : Q) : fle (Fin x) (Fin y) = false <-> (y < x)%Q.
Proof.
  pose proof (flt_Fin y x) as H. simpl in *.
  rewrite negb_true_iff in H. exact H.
Qed.

Lemma flt_Fin_false (x y : Q) : flt (Fin x) (Fin y) = false <-> (y <= x)%Q.
Proof.
  simpl. rewrite negb_false_iff. apply Qle_bool_iff.
Qed.

(** A strict comparison implies the large one; NaN satisfies neither. *)
Lemma flt_fle (a b : float) : flt a b = true -> fle a b = true.
Proof.
  destruct a, b; simpl; try congruence.
  intros H. apply (proj1 (flt_Fin _ _)) in H. apply Qle_bool_iff. lra.
Qed.

Lemma fle_trans (a b c : float) :
  fle a b = true -> fle b c = true -> fle a c = true.
Proof.
  destruct a, b, c; simpl; try congruence.
  rewrite !Qle_bool_iff. intros; lra.
Qed.

Lemma flt_fle_trans (a b c : float) :
  flt a b = true -> fle b c = true -> flt a c = true.
Proof.
  destruct a, b, c; simpl; try congruence.
  intros H1 H2. apply (proj1 (flt_Fin _ _)) in H1.
  apply Qle_bool_iff in H2. apply flt_Fin. lra.
Qed.

End FloatFacts.

(** ** Classification *)

(** The chain of tests of [classify_aqi], read as a decision list. *)
Lemma classify_aqi_cases (v : float) :
  (fle v (of_int 1) = true /\ classify_aqi v = "Good") \/
  (fle v (of_int 1) = false /\ fle v (of_int 2) = true /\
     classify_aqi v = "Moderate") \/
  (fle v (of_int 2) = false /\ fle v (of_int 3) = true /\
     classify_aqi v = "Unhealthy for Sensitive Groups") \/
  (fle v (of_int 3) = false /\ fle v (of_int 4) = true /\
     classify_aqi v = "Unhealthy") \/
  (fle v (of_int 1) = false /\ fle v (of_int 2) = false /\
   fle v (of_int 3) = false /\ fle v (of_int 4) = false /\
     classify_aqi v = "Very Unhealthy").
Proof.
  unfold classify_aqi.
  destruct (fle v (of_int 1)) eqn:E1; [tauto |].
  destruct (fle v (of_int 2)) eqn:E2; [tauto |].
  destruct (fle v (of_int 3)) eqn:E3; [tauto |].
  destruct (fle v (of_int 4)) eqn:E4; tauto.
Qed.

Ltac order_to_Q :=
  unfold of_int in *;
  repeat match goal with
  | H : fle (Fin _) (Fin _) = true |- _ => apply (proj1 (fle_Fin _ _)) in H
  | H : fle (Fin _) (Fin _) = false |- _ => apply (proj1 (fle_Fin_false _ _)) in H
  | H : flt (Fin _) (Fin _) = true |- _ => apply (proj1 (flt_Fin _ _)) in H
  | H : flt (Fin _) (Fin _) = false |- _ => apply (proj1 (flt_Fin_false _ _)) in H
  | |- fle (Fin _) (Fin _) = true => apply (proj2 (fle_Fin _ _))
  | |- fle (Fin _) (Fin _) = false => apply (proj2 (fle_Fin_false _ _))
  | |- flt (Fin _) (Fin _) = true => apply (proj2 (flt_Fin _ _))
  | |- flt (Fin _) (Fin _) = false => apply (proj2 (flt_Fin_false _ _))
  end;
  unfold inject_Z in *.

(** C2. On every non-negative value the classification follows the
    partition (-inf,1], (1,2], (2,3], (3,4], (4,inf): each category is
    returned on its interval and nowhere else, so the intervals neither
    overlap nor leave a gap; the value 1 is Good and nothing above 1 is. *)
Theorem classify_aqi_partition (v : float) :
  fle (of_int 0) v = true ->
  (classify_aqi v = "Good" <-> fle v (of_int 1) = true) /\
  (classify_aqi v = "Moderate" <->
     flt (of_int 1) v = true /\ fle v (of_int 2) = true) /\
  (classify_aqi v = "Unhealthy for Sensitive Groups" <->
     flt (of_int 2) v = true /\ fle v (of_int 3) = true) /\
  (classify_aqi v = "Unhealthy" <->
     flt (of_int 3) v = true /\ fle v (of_int 4) = true) /\
  (classify_aqi v = "Very Unhealthy" <-> flt (of_int 4) v = true) /\
  classify_aqi (of_int 1) = "Good" /\
  (flt (of_int 1) v = true -> In (classify_aqi v) (tail categories)).
Proof.
  intros Hv.
  destruct v as [| | q |]; try discriminate Hv.
  - destruct (classify_aqi_cases (Fin q))
      as [[H1 Hc] | [[H1 [H2 Hc]] | [[H2 [H3 Hc]] | [[H3 [H4 Hc]] | [H1 [H2 [H3 [H4 Hc]]]]]]]];
      rewrite Hc; simpl tail;
      repeat split; intros; simpl In;
      repeat match goal with H : _ /\ _ |- _ => destruct H end;
      try discriminate; try reflexivity; try tauto;
      order_to_Q; try lra.
  - repeat split; intros;
      repeat match goal with H : _ /\ _ |- _ => destruct H end;
      try discriminate; try reflexivity; simpl; tauto.
Qed.

Lemma classify_aqi_partition_witness :
  fle (of_int 0) (Fin (3 # 2)) = true /\
  (classify_aqi (Fin (3 # 2)) = "Moderate" <->
     flt (of_int 1) (Fin (3 # 2)) = true /\ fle (Fin (3 # 2)) (of_int 2) = true).
Proof.
  split; [reflexivity |].
  apply (classify_aqi_partition (Fin (3 # 2))). reflexivity.
Defined.

(** The boundary of the first two classes, just above the limit. *)
Example classify_aqi_just_above_one :
  classify_aqi (Fin 1) = "Good" /\
  classify_aqi (Fin (10000001 # 10000000)) = "Moderate".
Proof. split; reflexivity. Qed.

(** C10. The classification is total: every value, negative, infinite or
    NaN included, gets one of the five categories, and every strictly
    negative value is Good. *)
Theorem classify_aqi_total (v : float) :
  In (classify_aqi v) categories /\
  (flt v (of_int 0) = true -> classify_aqi v = "Good").
Proof.
  split.
  - destruct (classify_aqi_cases v)
      as [[_ Hc] | [[_ [_ Hc]] | [[_ [_ Hc]] | [[_ [_ Hc]] | [_ [_ [_ [_ Hc]]]]]]]];
      rewrite Hc; simpl; tauto.
  - intros Hneg. unfold classify_aqi.
    assert (fle v (of_int 1) = true) as ->; [| reflexivity].
    apply flt_fle. apply (flt_fle_trans v (of_int 0)); [exact Hneg | reflexivity].
Qed.

Lemma classify_aqi_total_witness :
  flt (Fin (-5 # 2)) (of_int 0) = true /\ classify_aqi (Fin (-5 # 2)) = "Good".
Proof.
  split; [reflexivity |].
  apply (proj2 (classify_aqi_total (Fin (-5 # 2)))). reflexivity.
Defined.

(** A value that is not a number falls through every test. *)
Example classify_aqi_nan : classify_aqi NaN = "Very Unhealthy".
Proof. reflexivity. Qed.

(** ** The score *)

(** C6. The aggregate PM2.5 = 50, PM10 = 50, NO2 = 20 under the limits
    25, 50, 40 has the ratios 2, 1 and 1/2, the score 2, and the category
    Moderate. *)
Theorem end_to_end_example :
  ratio example_aggregate example_limits "PM2.5" = Some (Fin 2) /\
  ratio example_aggregate example_limits "PM10" = Some (Fin 1) /\
  ratio example_aggregate example_limits "NO2" = Some (Fin (1 # 2)) /\
  calculate_simple_aqi example_aggregate example_limits = Ok (Fin 2) /\
  classify_aqi (Fin 2) = "Moderate".
Proof.
  repeat split; vm_compute; reflexivity.
Qed.

(** *** What the scorer reads, and when it fails *)

(** With the six entries present the score is the builtin maximum of the
    three ratios. *)
Lemma calculate_simple_aqi_Ok (row limits : gmap string float)
    (a la b lb c lc : float) :
  row !! "PM2.5" = Some a -> limits !! "PM2.5" = Some la ->
  row !! "PM10" = Some b -> limits !! "PM10" = Some lb ->
  row !! "NO2" = Some c -> limits !! "NO2" = Some lc ->
  calculate_simple_aqi row limits
    = Ok (py_max (fdiv a la) [fdiv b lb; fdiv c lc]).
Proof.
  intros Ha Hla Hb Hlb Hc Hlc. unfold calculate_simple_aqi, getitem.
  rewrite Ha, Hla, Hb, Hlb, Hc, Hlc. reflexivity.
Qed.

(** The outcome is decided by the six subscripts, in the order in which
    the function evaluates them. *)
Lemma calculate_simple_aqi_inv (row limits : gmap string float) :
  (exists a la b lb c lc,
      row !! "PM2.5" = Some a /\ limits !! "PM2.5" = Some la /\
      row !! "PM10" = Some b /\ limits !! "PM10" = Some lb /\
      row !! "NO2" = Some c /\ limits !! "NO2" = Some lc /\
      calculate_simple_aqi row limits
        = Ok (py_max (fdiv a la) [fdiv b lb; fdiv c lc])) \/
  (exists k, In k scored /\ (row !! k = None \/ limits !! k = None) /\
      calculate_simple_aqi row limits = Raise (KeyError k)).
Proof.
  unfold calculate_simple_aqi, getitem, scored.
  destruct (row !! "PM2.5") as [a |] eqn:Ha;
    [| right; exists "PM2.5"; simpl; auto].
  destruct (limits !! "PM2.5") as [la |] eqn:Hla;
    [| right; exists "PM2.5"; simpl; auto].
  destruct (row !! "PM10") as [b |] eqn:Hb;
    [| right; exists "PM10"; simpl; auto].
  destruct (limits !! "PM10") as [lb |] eqn:Hlb;
    [| right; exists "PM10"; simpl; auto].
  destruct (row !! "NO2") as [c |] eqn:Hc;
    [| right; exists "NO2"; simpl; auto 6].
  destruct (limits !! "NO2") as [lc |] eqn:Hlc;
    [| right; exists "NO2"; simpl; auto 6].
  left. exists a, la, b, lb, c, lc. simpl. auto 10.
Qed.

(** C9. The score depends on the PM2.5, PM10 and NO2 entries only: two
    aggregates that agree on these three, whatever their other entries,
    scored under two limit tables that agree on these three, have the same
    outcome. *)
Theorem calculate_simple_aqi_reads_three
    (row1 row2 limits1 limits2 : gmap string float) :
  (forall k, In k scored -> row1 !! k = row2 !! k) ->
  (forall k, In k scored -> limits1 !! k = limits2 !! k) ->
  calculate_simple_aqi row1 limits1 = calculate_simple_aqi row2 limits2.
Proof.
  intros Hrow Hlim. unfold calculate_simple_aqi, getitem.
  rewrite (Hrow "PM2.5"), (Hrow "PM10"), (Hrow "NO2") by (simpl; auto).
  rewrite (Hlim "PM2.5"), (Hlim "PM10"), (Hlim "NO2") by (simpl; auto).
  reflexivity.
Qed.

Lemma calculate_simple_aqi_reads_three_witness :
  calculate_simple_aqi
    (<["PM2.5" := of_int 30]> (<["PM10" := of_int 40]> (<["NO2" := of_int 20]>
      (<["SO2" := of_int 500]> (<["CO" := of_int 900]> ∅)))))
    who_limits
  = calculate_simple_aqi
    (<["PM2.5" := of_int 30]> (<["PM10" := of_int 40]> (<["NO2" := of_int 20]>
      (<["SO2" := of_int 1]> (<["O3" := of_int 70]> ∅)))))
    (<["PM2.5" := of_int 25]> (<["PM10" := of_int 50]> (<["NO2" := of_int 40]>
      (<["SO2" := of_int 7]> ∅)))).
Proof.
  apply calculate_simple_aqi_reads_three;
    intros k Hk; simpl in Hk;
    repeat (destruct Hk as [<- | Hk]; [vm_compute; reflexivity |]);
    destruct Hk.
Defined.

(** *** The maximum of three ratios *)

(** On numbers the builtin [max] of three arguments returns one of them,
    and none of them exceeds it. *)
Lemma py_max_three (a b c : float) :
  is_nan a = false -> is_nan b = false -> is_nan c = false ->
  let v := py_max a [b; c] in
  (v = a \/ v = b \/ v = c) /\
  fle a v = true /\ fle b v = true /\ fle c v = true.
Proof.
  intros Ha Hb Hc. unfold py_max, fgt. simpl.
  assert (forall x, is_nan x = false -> fle x x = true) as Hrefl.
  { intros [| | q |]; simpl; try congruence. intros _. apply Qle_bool_iff. lra. }
  assert (forall x y, is_nan x = false -> is_nan y = false ->
                      flt x y = false -> fle y x = true) as Htot.
  { intros [| | x |] [| | y |]; simpl; try congruence.
    intros _ _ H. rewrite negb_false_iff in H. exact H. }
  destruct (flt a b) eqn:Eab.
  - destruct (flt b c) eqn:Ebc.
    + repeat split; auto using flt_fle.
      apply flt_fle. apply (flt_fle_trans a b c); auto using flt_fle.
    + repeat split; auto using flt_fle.
  - destruct (flt a c) eqn:Eac.
    + repeat split; auto using flt_fle.
      apply (fle_trans b a c); auto using flt_fle.
    + repeat split; auto.
Qed.

(** A ratio that is not a number, when it comes first, is kept whatever
    follows: hence the hypotheses on NaN below. *)
Example py_max_nan_first : py_max NaN [Fin 1; Fin 2] = NaN.
Proof. reflexivity. Qed.

Lemma ratio_Some (row limits : gmap string float) (p : string) (r : float) :
  ratio row limits p = Some r <->
  exists x l, row !! p = Some x /\ limits !! p = Some l /\ r = fdiv x l.
Proof.
  unfold ratio. destruct (row !! p) as [x |]; simpl.
  - destruct (limits !! p) as [l |]; simpl.
    + split; [intros [= <-]; eauto | intros (? & ? & [= <-] & [= <-] & ->); reflexivity].
    + split; [discriminate | intros (? & ? & _ & ? & _); discriminate].
  - split; [discriminate | intros (? & ? & ? & _); discriminate].
Qed.

(** C1, as stated, fails: under the table of [main] the SO2 ratio of
    [so2_day] is 10, yet the score is 1/2, the NO2 ratio. *)
Lemma score_ignores_so2 :
  calculate_simple_aqi so2_day who_limits = Ok (Fin (1 # 2)) /\
  ratio so2_day who_limits "SO2" = Some (Fin 10) /\
  ~ max_over_limit_keys so2_day who_limits (Fin (1 # 2)).
Proof.
  split; [vm_compute; reflexivity |].
  split; [vm_compute; reflexivity |].
  intros [_ Hub].
  specialize (Hub "SO2" (Fin 10)).
  assert (fle (Fin 10) (Fin (1 # 2)) = true) as H.
  { apply Hub; [| vm_compute; reflexivity]. eexists. vm_compute. reflexivity. }
  vm_compute in H. discriminate H.
Qed.

(** C1, amended. When the PM2.5, PM10 and NO2 ratios exist and are numbers,
    the score is the maximum of these three ratios. *)
Theorem calculate_simple_aqi_max (row limits : gmap string float)
    (r1 r2 r3 : float) :
  ratio row limits "PM2.5" = Some r1 ->
  ratio row limits "PM10" = Some r2 ->
  ratio row limits "NO2" = Some r3 ->
  is_nan r1 = false -> is_nan r2 = false -> is_nan r3 = false ->
  exists v, calculate_simple_aqi row limits = Ok v /\
            is_max_ratio (fun p => In p scored) row limits v.
Proof.
  intros H1 H2 H3 N1 N2 N3.
  pose proof H1 as H1'. pose proof H2 as H2'. pose proof H3 as H3'.
  apply ratio_Some in H1' as (a & la & Ha & Hla & E1).
  apply ratio_Some in H2' as (b & lb & Hb & Hlb & E2).
  apply ratio_Some in H3' as (c & lc & Hc & Hlc & E3).
  exists (py_max r1 [r2; r3]). split.
  - subst r1 r2 r3. apply calculate_simple_aqi_Ok; assumption.
  - destruct (py_max_three r1 r2 r3 N1 N2 N3) as (Hin & L1 & L2 & L3).
    split.
    + destruct Hin as [-> | [-> | ->]].
      * exists "PM2.5". split; [simpl; auto | exact H1].
      * exists "PM10". split; [simpl; auto | exact H2].
      * exists "NO2". split; [simpl; auto | exact H3].
    + intros p r Hp Hr. simpl in Hp.
      destruct Hp as [<- | [<- | [<- | []]]]; congruence.
Qed.

Lemma calculate_simple_aqi_max_witness :
  exists v, calculate_simple_aqi so2_day who_limits = Ok v /\
            is_max_ratio (fun p => In p scored) so2_day who_limits v.
Proof.
  apply (calculate_simple_aqi_max so2_day who_limits
           (Fin (2 # 5)) (Fin (2 # 5)) (Fin (1 # 2)));
    vm_compute; reflexivity.
Defined.

(** *** Failures of the scorer *)

(** C4, as stated, fails: an aggregate without SO2 is scored under a table
    that limits SO2, and a negative or a zero limit is divided by; none of
    the three calls fails. *)
Lemma score_does_not_validate :
  (is_Some (who_limits !! "SO2") /\ clear_day !! "SO2" = None /\
   calculate_simple_aqi clear_day who_limits = Ok (Fin (1 # 2))) /\
  calculate_simple_aqi clear_day (<["PM2.5" := of_int (-25)]> who_limits)
    = Ok (Fin (1 # 2)) /\
  calculate_simple_aqi clear_day (<["PM10" := of_int 0]> who_limits) = Ok PInf.
Proof.
  repeat split; try (vm_compute; reflexivity).
  eexists. vm_compute. reflexivity.
Qed.

Lemma calculate_simple_aqi_Raise_inv (row limits : gmap string float) (e : exn) :
  calculate_simple_aqi row limits = Raise e ->
  exists k, e = KeyError k /\ first_absent row limits k.
Proof.
  unfold calculate_simple_aqi, getitem, first_absent, scored.
  destruct (row !! "PM2.5") as [a |] eqn:Ha; simpl;
    [| intros [= <-]; exists "PM2.5"; split; [reflexivity |];
       exists [], ["PM10"; "NO2"]; simpl; intuition].
  destruct (limits !! "PM2.5") as [la |] eqn:Hla; simpl;
    [| intros [= <-]; exists "PM2.5"; split; [reflexivity |];
       exists [], ["PM10"; "NO2"]; simpl; intuition].
  destruct (row !! "PM10") as [b |] eqn:Hb; simpl;
    [| intros [= <-]; exists "PM10"; split; [reflexivity |];
       exists ["PM2.5"], ["NO2"]; simpl;
       split; [reflexivity |]; split; [| auto];
       intros k' [<- | []]; split; eauto].
  destruct (limits !! "PM10") as [lb |] eqn:Hlb; simpl;
    [| intros [= <-]; exists "PM10"; split; [reflexivity |];
       exists ["PM2.5"], ["NO2"]; simpl;
       split; [reflexivity |]; split; [| auto];
       intros k' [<- | []]; split; eauto].
  destruct (row !! "NO2") as [c |] eqn:Hc; simpl;
    [| intros [= <-]; exists "NO2"; split; [reflexivity |];
       exists ["PM2.5"; "PM10"], []; simpl;
       split; [reflexivity |]; split; [| auto];
       intros k' [<- | [<- | []]]; split; eauto].
  destruct (limits !! "NO2") as [lc |] eqn:Hlc; simpl;
    [| intros [= <-]; exists "NO2"; split; [reflexivity |];
       exists ["PM2.5"; "PM10"], []; simpl;
       split; [reflexivity |]; split; [| auto];
       intros k' [<- | [<- | []]]; split; eauto].
  discriminate.
Qed.

Lemma calculate_simple_aqi_first_absent (row limits : gmap string float)
    (k : string) :
  first_absent row limits k ->
  calculate_simple_aqi row limits = Raise (KeyError k).
Proof.
  intros (before & after & Hsplit & Hbefore & Hnone).
  unfold scored in Hsplit.
  assert (forall k', In k' before -> exists x l,
            row !! k' = Some x /\ limits !! k' = Some l) as Hpresent.
  { intros k' Hin. destruct (Hbefore k' Hin) as [[x Hx] [l Hl]]. eauto. }
  unfold calculate_simple_aqi, getitem.
  destruct before as [| b1 [| b2 [| b3 rest]]]; simpl in Hsplit.
  - injection Hsplit as <- _.
    destruct Hnone as [-> | Hl]; [reflexivity |].
    destruct (row !! "PM2.5"); simpl; rewrite ?Hl; reflexivity.
  - injection Hsplit as <- <- _.
    destruct (Hpresent "PM2.5") as (x & l & -> & ->); [simpl; auto |]. simpl.
    destruct Hnone as [-> | Hl]; [reflexivity |].
    destruct (row !! "PM10"); simpl; rewrite ?Hl; reflexivity.
  - injection Hsplit as <- <- <- _.
    destruct (Hpresent "PM2.5") as (x & l & -> & ->); [simpl; auto |]. simpl.
    destruct (Hpresent "PM10") as (x' & l' & -> & ->); [simpl; auto |]. simpl.
    destruct Hnone as [-> | Hl]; [reflexivity |].
    destruct (row !! "NO2"); simpl; rewrite ?Hl; reflexivity.
  - injection Hsplit as _ _ _ Hrest.
    destruct rest; discriminate Hrest.
Qed.

(** C4, amended. The scorer validates nothing: it returns a value exactly
    when the aggregate and the limits table both have the PM2.5, PM10 and
    NO2 entries, and otherwise its failure is the [KeyError] that names the
    first pollutant, in the order PM2.5, PM10, NO2, that the aggregate or
    the limits table lacks, and no other failure. *)
Theorem calculate_simple_aqi_failures (row limits : gmap string float) :
  ((exists v, calculate_simple_aqi row limits = Ok v) <->
   (forall k, In k scored -> is_Some (row !! k) /\ is_Some (limits !! k))) /\
  (forall e, calculate_simple_aqi row limits = Raise e <->
     exists k, e = KeyError k /\ first_absent row limits k).
Proof.
  split.
  - destruct (calculate_simple_aqi_inv row limits)
      as [(a & la & b & lb & c & lc & Ha & Hla & Hb & Hlb & Hc & Hlc & Hv)
         | (k & Hk & Hnone & He)].
    + split; [| eauto].
      intros _ k Hk. simpl in Hk.
      destruct Hk as [<- | [<- | [<- | []]]]; split; eauto.
    + split.
      * intros [v Hv]. congruence.
      * intros Hall. destruct (Hall k Hk) as [[x Hx] [l Hl]].
        destruct Hnone; congruence.
  - intros e. split.
    + apply calculate_simple_aqi_Raise_inv.
    + intros (k & -> & Hk). apply calculate_simple_aqi_first_absent. exact Hk.
Qed.

Lemma calculate_simple_aqi_failures_witness :
  exists k, KeyError "PM10" = KeyError k /\
            first_absent (<["PM2.5" := of_int 10]> ∅) who_limits k.
Proof.
  apply (proj1 (proj2 (calculate_simple_aqi_failures
                         (<["PM2.5" := of_int 10]> ∅) who_limits)
                  (KeyError "PM10"))).
  vm_compute. reflexivity.
Defined.

(** No failure of the scorer carries one of the names of the specification. *)
Corollary calculate_simple_aqi_raises_KeyError (row limits : gmap string float)
    (e : exn) :
  calculate_simple_aqi row limits = Raise e -> exn_class e = "KeyError".
Proof.
  intros He.
  destruct (calculate_simple_aqi_inv row limits)
    as [(a & la & b & lb & c & lc & _ & _ & _ & _ & _ & _ & Hv) | (k & _ & _ & Hk)].
  - congruence.
  - rewrite Hk in He. injection He as <-. reflexivity.
Qed.

(** *** Monotonicity *)







Lemma who_limits_positive : limits_positive who_limits.
Proof.
  intros k Hk. simpl in Hk.
  destruct Hk as [<- | [<- | [<- | []]]]; eexists; split;
    vm_compute; reflexivity.
Qed.



(** Without the positivity of the limits the order is not kept: under a
    negative limit a larger concentration has the smaller ratio. *)
Example negative_limit_reverses :
  fdiv (of_int 10) (of_int (-25)) = Fin (-2 # 5) /\
  fdiv (of_int 20) (of_int (-25)) = Fin (-4 # 5).
Proof. split; vm_compute; reflexivity. Qed.

(** ** Forward fill *)

Section ForwardFill.

Context {A : Type}.
Implicit Types (col : list (option A)) (last : option A).

Lemma ffill_from_length last col :
  length (ffill_from last col) = length col.
Proof.
  revert last. induction col as [| c rest IH]; intros last; simpl.
  - reflexivity.
  - rewrite IH. reflexivity.
Qed.

(** A valid observation is kept. *)
Lemma ffill_from_valid last col (i : nat) (v : A) :
  col !! i = Some (Some v) -> ffill_from last col !! i = Some (Some v).
Proof.
  revert last i. induction col as [| c rest IH]; intros last i Hi.
  - destruct i; discriminate Hi.
  - destruct i as [| i]; simpl in *.
    + injection Hi as ->. reflexivity.
    + apply IH. exact Hi.
Qed.

(** A cell with only missing cells before it takes the value carried in
    from above the column. *)
Lemma ffill_from_leading last col (i : nat) :
  (forall j, (j <= i)%nat -> col !! j = Some None) ->
  ffill_from last col !! i = Some last.
Proof.
  revert last i. induction col as [| c rest IH]; intros last i Hall.
  - specialize (Hall i (Nat.le_refl i)). destruct i; discriminate Hall.
  - pose proof (Hall O (Nat.le_0_l i)) as H0. simpl in H0.
    injection H0 as ->.
    destruct i as [| i]; simpl.
    + reflexivity.
    + apply IH. intros j Hj. apply (Hall (S j)). lia.
Qed.

(** A missing cell takes the nearest valid observation before it. *)
Lemma ffill_from_nearest last col (i j : nat) (v : A) :
  (j < i)%nat -> col !! j = Some (Some v) ->
  (forall k, (j < k <= i)%nat -> col !! k = Some None) ->
  ffill_from last col !! i = Some (Some v).
Proof.
  revert last i j. induction col as [| c rest IH]; intros last i j Hji Hj Hgap.
  - destruct j; discriminate Hj.
  - destruct i as [| i]; [lia |].
    destruct j as [| j]; simpl in *.
    + injection Hj as ->.
      apply ffill_from_leading.
      intros k Hk. apply (Hgap (S k)). lia.
    + apply (IH _ i j); [lia | exact Hj |].
      intros k Hk. apply (Hgap (S k)). lia.
Qed.

(** Filling a filled column changes nothing. *)
Lemma ffill_from_idempotent last col :
  ffill_from last (ffill_from last col) = ffill_from last col.
Proof.
  revert last. induction col as [| c rest IH]; intros last; simpl.
  - reflexivity.
  - destruct c as [x |]; simpl.
    + rewrite IH. reflexivity.
    + destruct last as [y |]; simpl; rewrite IH; reflexivity.
Qed.

End ForwardFill.

Example ex_ffill :
  ffill [None; Some 3%Z; None; None; Some 5%Z; None]
  = [None; Some 3%Z; Some 3%Z; Some 3%Z; Some 5%Z; Some 5%Z].
Proof. reflexivity. Qed.


(** C8. The fill is idempotent: filling the filled frame gives the filled
    frame. *)
Theorem fillna_ffill_idempotent (df : DataFrame) :
  fillna_ffill (fillna_ffill df) = fillna_ffill df.
Proof.
  unfold fillna_ffill. rewrite <- map_fmap_compose.
  apply map_fmap_ext. intros name col _. simpl.
  apply ffill_from_idempotent.
Qed.


(** ** Seasons *)

Ltac bool_to_Q :=
  repeat match goal with
  | H : Qle_bool _ _ = true |- _ => apply Qle_bool_iff in H
  | H : Qle_bool ?x ?y = false |- _ => apply (proj1 (fle_Fin_false x y)) in H
  | H : Qeq_bool _ _ = true |- _ => apply Qeq_bool_iff in H
  | H : Qeq_bool _ _ = false |- _ => apply Qeq_bool_neq in H
  end;
  unfold inject_Z in *.

(** The bins of [season_of_month], interval by interval: the lowest edge 0
    belongs to the first bin, and a month below 0 or above 12 has no
    label. *)
Lemma season_of_month_bins (m : Q) :
  (season_of_month m = Some "Winter" <-> (0 <= m <= 3)%Q) /\
  (season_of_month m = Some "Spring" <-> (3 < m <= 6)%Q) /\
  (season_of_month m = Some "Summer" <-> (6 < m <= 9)%Q) /\
  (season_of_month m = Some "Fall" <-> (9 < m <= 12)%Q) /\
  (season_of_month m = None <-> (m < 0 \/ 12 < m)%Q).
Proof.
  unfold season_of_month, pd_cut. simpl.
  destruct (Qeq_bool m (inject_Z 0)) eqn:E0;
  destruct (Qle_bool m (inject_Z 0)) eqn:L0; simpl;
  try (destruct (Qle_bool m (inject_Z 3)) eqn:L3; simpl);
  try (destruct (Qle_bool m (inject_Z 6)) eqn:L6; simpl);
  try (destruct (Qle_bool m (inject_Z 9)) eqn:L9; simpl);
  try (destruct (Qle_bool m (inject_Z 12)) eqn:L12; simpl);
  bool_to_Q;
  repeat split; intros;
  repeat match goal with H : _ /\ _ |- _ => destruct H end;
  try discriminate; try reflexivity; try lra;
  try (exfalso; lra);
  try (destruct (Qlt_le_dec m 0); [left | right]; lra).
Qed.

Lemma traverse_Ok {A B : Type} (f : A -> result B) (l : list A) (l' : list B) :
  traverse f l = Ok l' ->
  forall i a, l !! i = Some a -> exists b, f a = Ok b /\ l' !! i = Some b.
Proof.
  revert l'. induction l as [| x rest IH]; intros l' Hl i a Hi.
  - destruct i; discriminate Hi.
  - simpl in Hl. destruct (f x) as [b |] eqn:Hx; [| discriminate Hl].
    simpl in Hl. destruct (traverse f rest) as [bs |] eqn:Hr; [| discriminate Hl].
    simpl in Hl. injection Hl as <-.
    destruct i as [| i]; simpl in *.
    + injection Hi as <-. eauto.
    + apply (IH bs eq_refl i a Hi).
Qed.

Lemma traverse_Raise {A B : Type} (f : A -> result B) (l : list A) (e : exn) :
  traverse f l = Raise e -> exists a, In a l /\ f a = Raise e.
Proof.
  induction l as [| x rest IH]; intros Hl; [discriminate Hl |].
  simpl in Hl. destruct (f x) as [b |] eqn:Hx.
  - simpl in Hl. destruct (traverse f rest) as [bs |] eqn:Hr; [discriminate Hl |].
    simpl in Hl. injection Hl as <-.
    destruct (IH eq_refl) as (a & Ha & Hfa). exists a. simpl. auto.
  - simpl in Hl. injection Hl as <-. exists x. simpl. auto.
Qed.

Lemma season_of_cell_Raise (c : cell) (e : exn) :
  season_of_cell c = Raise e -> exn_class e = "TypeError".
Proof.
  destruct c as [[q | s | t] |]; simpl; intros [= <-]; reflexivity.
Qed.

Section Seasons.

Variable assemble : cell -> cell -> cell -> cell -> option (option Z).
Variable dayofweek : Z -> Z.

Lemma to_datetime_row_Raise (r : cell * cell * cell * cell) (e : exn) :
  to_datetime_row assemble r = Raise e -> exn_class e = "ValueError".
Proof.
  destruct r as [[[y m] d] h]. simpl.
  destruct (assemble y m d h); intros [= <-]. reflexivity.
Qed.

Lemma getitem_list_time (df : DataFrame) (ycol mcol dcol hcol : column) :
  df !! "year" = Some ycol -> df !! "month" = Some mcol ->
  df !! "day" = Some dcol -> df !! "hour" = Some hcol ->
  getitem_list df ["year"; "month"; "day"; "hour"] = Ok [ycol; mcol; dcol; hcol].
Proof.
  intros Hy Hm Hd Hh. unfold getitem_list. cbn [List.filter].
  rewrite Hy, Hm, Hd, Hh.
  rewrite !bool_decide_eq_true_2 by eauto.
  cbn [negb fmap list_fmap]. rewrite Hy, Hm, Hd, Hh. reflexivity.
Qed.

(** With its four time columns present, [load_data] is the datetime
    assembly followed by the binning of the month column; the later
    subscripts cannot fail. *)
Lemma load_data_steps (csv : DataFrame) (ycol mcol dcol hcol : column) :
  fillna_ffill csv !! "year" = Some ycol ->
  fillna_ffill csv !! "month" = Some mcol ->
  fillna_ffill csv !! "day" = Some dcol ->
  fillna_ffill csv !! "hour" = Some hcol ->
  load_data assemble dayofweek csv =
    (datetime ← traverse (to_datetime_row assemble)
                  (zip (zip (zip ycol mcol) dcol) hcol);
     season ← traverse season_of_cell mcol;
     Ok (<["day_name" :=
             day_name_of_cell <$> (dayofweek_of_cell dayofweek <$> datetime)]>
         (<["day_of_week" := dayofweek_of_cell dayofweek <$> datetime]>
         (<["season" := season]>
         (<["datetime" := datetime]> (fillna_ffill csv)))))).
Proof.
  intros Hy Hm Hd Hh. unfold load_data.
  rewrite (getitem_list_time _ ycol mcol dcol hcol Hy Hm Hd Hh).
  unfold getitem. cbn [mbind result_bind time_rows].
  destruct (traverse (to_datetime_row assemble) _) as [datetime |]; simpl;
    [| reflexivity].
  rewrite lookup_insert_ne by discriminate. rewrite Hm. simpl.
  destruct (traverse season_of_cell mcol) as [season |]; simpl;
    [| reflexivity].
  rewrite lookup_insert_ne by discriminate.
  rewrite lookup_insert_eq. simpl.
  rewrite lookup_insert_eq. simpl. reflexivity.
Qed.

(** Without one of them it fails, with the [KeyError] of the subscript. *)
Lemma load_data_missing_column (csv : DataFrame) :
  (exists ycol mcol dcol hcol,
      fillna_ffill csv !! "year" = Some ycol /\
      fillna_ffill csv !! "month" = Some mcol /\
      fillna_ffill csv !! "day" = Some dcol /\
      fillna_ffill csv !! "hour" = Some hcol) \/
  (exists k msg, In k ["year"; "month"; "day"; "hour"] /\ csv !! k = None /\
                 load_data assemble dayofweek csv = Raise (KeyError msg)).
Proof.
  assert (forall k, fillna_ffill csv !! k = None -> csv !! k = None) as Hnone.
  { intros k. unfold fillna_ffill. rewrite lookup_fmap.
    destruct (csv !! k); [discriminate | reflexivity]. }
  destruct (fillna_ffill csv !! "year") as [ycol |] eqn:Hy;
  destruct (fillna_ffill csv !! "month") as [mcol |] eqn:Hm;
  destruct (fillna_ffill csv !! "day") as [dcol |] eqn:Hd;
  destruct (fillna_ffill csv !! "hour") as [hcol |] eqn:Hh;
  [left; eauto 10 | ..]; right;
  match goal with
  | H : fillna_ffill csv !! ?k = None |- _ =>
      exists k; eexists; split; [simpl; auto 6 |]; split; [exact (Hnone k H) |]
  end;
  unfold load_data, getitem_list; cbn [List.filter];
  rewrite Hy, Hm, Hd, Hh;
  rewrite ?bool_decide_eq_true_2 by eauto;
  rewrite ?bool_decide_eq_false_2 by (intros [? ?]; discriminate);
  cbn [negb]; reflexivity.
Qed.

End Seasons.

(** The [KeyError] of a file without some of its time columns names all of
    them at once. *)
Example load_data_without_time_columns :
  load_data sample_assemble sample_dayofweek
    (delete "hour" (delete "month" gap_month_csv))
    = Raise (KeyError "['month', 'hour'] not in index") /\
  load_data sample_assemble sample_dayofweek gap_frame
    = Raise (KeyError "None of [Index(['year', 'month', 'day', 'hour'], dtype='object')] are in the [columns]").
Proof. split; vm_compute; reflexivity. Qed.

Lemma traverse_Raise_same {A B : Type} (f : A -> result B) (l : list A)
    (a : A) (e : exn) :
  (forall x e', f x = Raise e' -> e' = e) ->
  In a l -> f a = Raise e -> traverse f l = Raise e.
Proof.
  intros Hsame. induction l as [| x rest IH]; intros Hin Ha; [destruct Hin |].
  simpl. destruct (f x) as [b |] eqn:Hx.
  - destruct Hin as [-> | Hin]; [congruence |].
    rewrite (IH Hin Ha). reflexivity.
  - rewrite (Hsame x e0 Hx). reflexivity.
Qed.

Lemma season_of_month_quarters (z : Z) :
  ((1 <= z <= 3)%Z -> season_of_month (inject_Z z) = Some "Winter") /\
  ((4 <= z <= 6)%Z -> season_of_month (inject_Z z) = Some "Spring") /\
  ((7 <= z <= 9)%Z -> season_of_month (inject_Z z) = Some "Summer") /\
  ((10 <= z <= 12)%Z -> season_of_month (inject_Z z) = Some "Fall").
Proof.
  destruct (season_of_month_bins (inject_Z z)) as (Hw & Hsp & Hsu & Hf & _).
  repeat split; intros Hz;
    [apply Hw | apply Hsp | apply Hsu | apply Hf];
    unfold Qle, Qlt; simpl; lia.
Qed.

Lemma month_checked_assemble_rejects (y m d h : cell) (z : Z) :
  m = Some (SNum (inject_Z z)) -> ~ (1 <= z <= 12)%Z ->
  month_checked_assemble y m d h = None.
Proof.
  intros -> Hz. unfold month_checked_assemble. rewrite Qfloor_Z.
  assert ((1 <=? z)%Z && (z <=? 12)%Z = false) as Hrange.
  { destruct (1 <=? z)%Z eqn:E1; [| reflexivity].
    destruct (z <=? 12)%Z eqn:E2; [| reflexivity]. lia. }
  rewrite <- andb_assoc, Hrange, andb_false_r. reflexivity.
Qed.

Section MonthOutOfRange.

Variable assemble : cell -> cell -> cell -> cell -> option (option Z).
Variable dayofweek : Z -> Z.

(** What is used of the datetime assembly of pandas: it reads the year,
    the month and the day of a row as the digits YYYYMMDD of a date, and
    so rejects a row with a four-digit year and a day of the month whose
    month is 0 or a number from 13 to 99. *)
Hypothesis assemble_checks_month :
  forall (yz z dz : Z) (h : cell),
    (1000 <= yz <= 9999)%Z -> (1 <= dz <= 31)%Z ->
    (z = 0 \/ 13 <= z <= 99)%Z ->
    assemble (Some (SNum (inject_Z yz))) (Some (SNum (inject_Z z)))
             (Some (SNum (inject_Z dz))) h = None.

(** C3, amended. The season is a function of the month: months 1 to 3
    are Winter, 4 to 6 Spring, 7 to 9 Summer, 10 to 12 Fall, and the season
    of a loaded row is the season of its month.  For a dated row whose
    month is 0 or 13 (or any number up to 99) the derivation fails instead
    of producing a season: the datetime assembly, which comes before the
    binning, rejects the row and [load_data] raises a [ValueError]. *)
Theorem load_data_season (csv : DataFrame) :
  (forall z : Z,
     ((1 <= z <= 3)%Z -> season_of_month (inject_Z z) = Some "Winter") /\
     ((4 <= z <= 6)%Z -> season_of_month (inject_Z z) = Some "Spring") /\
     ((7 <= z <= 9)%Z -> season_of_month (inject_Z z) = Some "Summer") /\
     ((10 <= z <= 12)%Z -> season_of_month (inject_Z z) = Some "Fall")) /\
  (forall df, load_data assemble dayofweek csv = Ok df ->
     exists mcol scol,
       fillna_ffill csv !! "month" = Some mcol /\
       df !! "season" = Some scol /\
       forall i m, mcol !! i = Some (Some (SNum m)) ->
                   scol !! i = Some (SStr <$> season_of_month m)) /\
  (forall ycol mcol dcol hcol i yz z dz,
     csv !! "year" = Some ycol -> csv !! "month" = Some mcol ->
     csv !! "day" = Some dcol -> csv !! "hour" = Some hcol ->
     ycol !! i = Some (Some (SNum (inject_Z yz))) ->
     mcol !! i = Some (Some (SNum (inject_Z z))) ->
     dcol !! i = Some (Some (SNum (inject_Z dz))) ->
     (i < length hcol)%nat ->
     (1000 <= yz <= 9999)%Z -> (1 <= dz <= 31)%Z ->
     (z = 0 \/ 13 <= z <= 99)%Z ->
     exists msg,
       load_data assemble dayofweek csv = Raise (ValueError msg)).
Proof.
  split; [exact season_of_month_quarters |]. split.
  - intros df Hdf.
    destruct (load_data_missing_column assemble dayofweek csv)
      as [(ycol & mcol & dcol & hcol & Hy & Hm & Hd & Hh) | (k & msg & _ & _ & He)];
      [| congruence].
    rewrite (load_data_steps assemble dayofweek csv ycol mcol dcol hcol Hy Hm Hd Hh)
      in Hdf.
    destruct (traverse (to_datetime_row assemble) _) as [datetime |];
      [| discriminate Hdf]. simpl in Hdf.
    destruct (traverse season_of_cell mcol) as [season |] eqn:Hs;
      [| discriminate Hdf]. simpl in Hdf. injection Hdf as <-.
    exists mcol, season. split; [exact Hm |]. split.
    + rewrite !lookup_insert_ne by discriminate. apply lookup_insert_eq.
    + intros i m Hi.
      destruct (traverse_Ok _ _ _ Hs i _ Hi) as (b & Hb & Hlook).
      simpl in Hb. injection Hb as <-. exact Hlook.
  - intros ycol mcol dcol hcol i yz z dz Hy Hm Hd Hh Hyi Hmi Hdi Lh Ry Rd Rz.
    assert (forall k col, csv !! k = Some col ->
              fillna_ffill csv !! k = Some (ffill col)) as Hfill.
    { intros k col Hk. unfold fillna_ffill. rewrite lookup_fmap, Hk. reflexivity. }
    rewrite (load_data_steps assemble dayofweek csv _ _ _ _
               (Hfill _ _ Hy) (Hfill _ _ Hm) (Hfill _ _ Hd) (Hfill _ _ Hh)).
    apply (ffill_from_valid None) in Hyi, Hmi, Hdi.
    destruct (lookup_lt_is_Some_2 (ffill hcol) i) as [h Hhi];
      [unfold ffill; rewrite ffill_from_length; exact Lh |].
    assert (zip (zip (zip (ffill ycol) (ffill mcol)) (ffill dcol)) (ffill hcol) !! i
            = Some (Some (SNum (inject_Z yz)), Some (SNum (inject_Z z)),
                    Some (SNum (inject_Z dz)), h)) as Hrow.
    { rewrite !lookup_zip_with. unfold ffill in *.
      rewrite Hyi, Hmi, Hdi, Hhi. reflexivity. }
    exists "cannot assemble the datetimes".
    rewrite (traverse_Raise_same (to_datetime_row assemble) _
               (Some (SNum (inject_Z yz)), Some (SNum (inject_Z z)),
                Some (SNum (inject_Z dz)), h)
               (ValueError "cannot assemble the datetimes")).
    + reflexivity.
    + intros [[[y' m'] d'] h'] e'. simpl.
      destruct (assemble y' m' d' h'); [discriminate | intros [= <-]; reflexivity].
    + apply list_elem_of_In. eapply list_elem_of_lookup_2. exact Hrow.
    + simpl. rewrite (assemble_checks_month yz z dz h Ry Rd Rz). reflexivity.
Qed.

End MonthOutOfRange.

(** C3, as stated, fails on the kind of the failure: a file whose month is
    13, or 0, is not loaded, but what is raised is the [ValueError] of the
    datetime assembly; the program has no error of the month. *)
Lemma month_out_of_range_raises_ValueError :
  load_data month_checked_assemble sample_dayofweek (one_row_csv 13)
    = Raise (ValueError "cannot assemble the datetimes") /\
  load_data month_checked_assemble sample_dayofweek (one_row_csv 0)
    = Raise (ValueError "cannot assemble the datetimes").
Proof. split; vm_compute; reflexivity. Qed.

Lemma load_data_season_witness :
  exists msg,
    load_data month_checked_assemble sample_dayofweek (one_row_csv 13)
      = Raise (ValueError msg).
Proof.
  assert (forall (yz z dz : Z) (h : cell),
            (1000 <= yz <= 9999)%Z -> (1 <= dz <= 31)%Z ->
            (z = 0 \/ 13 <= z <= 99)%Z ->
            month_checked_assemble (Some (SNum (inject_Z yz)))
              (Some (SNum (inject_Z z))) (Some (SNum (inject_Z dz))) h = None)
    as Hchecks.
  { intros yz z dz h _ _ Hz.
    apply (month_checked_assemble_rejects _ _ _ _ z eq_refl). lia. }
  destruct (load_data_season month_checked_assemble sample_dayofweek
              Hchecks (one_row_csv 13))
    as (_ & _ & Hfails).
  apply (Hfails [Some (SNum 2013)] [Some (SNum (inject_Z 13))]
           [Some (SNum 1)] [Some (SNum 0)] 0%nat 2013%Z 13%Z 1%Z);
    try reflexivity; simpl; lia.
Defined.

(** * Further properties *)

(** ** The classification is ordinal *)

Ltac above_threshold v1 v2 H12 :=
  match goal with
  | Hf : fle v1 (of_int ?b) = false, Ht : fle v2 (of_int ?a) = true |- _ =>
      assert (fle v1 (of_int b) = true)
        by (apply (fle_trans _ _ _ H12), (fle_trans _ _ _ Ht); reflexivity);
      congruence
  end.

(** X1. A larger score never gets a milder category: the classification
    is monotone from the order of the values to the order Good, Moderate,
    Unhealthy for Sensitive Groups, Unhealthy, Very Unhealthy. *)
Theorem classify_aqi_monotone (v1 v2 : float) :
  fle v1 v2 = true ->
  (severity (classify_aqi v1) <= severity (classify_aqi v2))%nat.
Proof.
  intros H12.
  destruct (classify_aqi_cases v1)
    as [[A1 Hc1] | [[A1 [A2 Hc1]] | [[A2 [A3 Hc1]] | [[A3 [A4 Hc1]] | [A1 [A2 [A3 [A4 Hc1]]]]]]]];
  destruct (classify_aqi_cases v2)
    as [[B1 Hc2] | [[B1 [B2 Hc2]] | [[B2 [B3 Hc2]] | [[B3 [B4 Hc2]] | [B1 [B2 [B3 [B4 Hc2]]]]]]]];
  rewrite Hc1, Hc2; vm_compute; try lia;
  exfalso; above_threshold v1 v2 H12.
Qed.

Lemma classify_aqi_monotone_witness :
  (severity (classify_aqi (Fin (3 # 2))) <= severity (classify_aqi (Fin (7 # 2))))%nat.
Proof.
  apply (classify_aqi_monotone (Fin (3 # 2)) (Fin (7 # 2))). reflexivity.
Defined.

(** ** The score of a day, and its category *)

Lemma fdiv_Fin_pos (x l : Q) :
  (0 < l)%Q -> fdiv (Fin x) (Fin l) = Fin (Qred (x / l)).
Proof.
  intros Hl. simpl. destruct (Qeq_bool l 0) eqn:E; [| reflexivity].
  apply Qeq_bool_iff in E. lra.
Qed.

Lemma Qred_div_le (x l t : Q) :
  (0 < l)%Q -> (Qred (x / l) <= t)%Q <-> (x <= t * l)%Q.
Proof.
  intros Hl. rewrite Qred_correct. split; intros H.
  - apply (Qmult_le_r _ _ l Hl) in H.
    assert (x / l * l == x)%Q as E by (field; lra).
    rewrite E in H. exact H.
  - apply Qle_shift_div_r; assumption.
Qed.

(** The maximum is below a threshold exactly when the three arguments are. *)
Lemma py_max_three_le (a b c t : Q) :
  fle (py_max (Fin a) [Fin b; Fin c]) (Fin t) = true <->
  (a <= t /\ b <= t /\ c <= t)%Q.
Proof.
  destruct (py_max_three (Fin a) (Fin b) (Fin c)) as (Hin & La & Lb & Lc);
    try reflexivity.
  cbv zeta in Hin, La, Lb, Lc. split.
  - intros Hv. repeat split; apply fle_Fin.
    + exact (fle_trans _ _ _ La Hv).
    + exact (fle_trans _ _ _ Lb Hv).
    + exact (fle_trans _ _ _ Lc Hv).
  - intros (Ha & Hb & Hc).
    destruct Hin as [-> | [-> | ->]]; apply fle_Fin; assumption.
Qed.

Lemma py_max_three_Fin (a b c : Q) :
  exists m, py_max (Fin a) [Fin b; Fin c] = Fin m.
Proof.
  destruct (py_max_three (Fin a) (Fin b) (Fin c)) as (Hin & _); try reflexivity.
  cbv zeta in Hin. destruct Hin as [-> | [-> | ->]]; eauto.
Qed.

Lemma classify_aqi_Fin_ends (m : Q) :
  (classify_aqi (Fin m) = "Good" <-> fle (Fin m) (of_int 1) = true) /\
  (classify_aqi (Fin m) = "Very Unhealthy" <-> fle (Fin m) (of_int 4) = false).
Proof.
  destruct (classify_aqi_cases (Fin m))
    as [[H1 Hc] | [[H1 [H2 Hc]] | [[H2 [H3 Hc]] | [[H3 [H4 Hc]] | [H1 [H2 [H3 [H4 Hc]]]]]]]];
    rewrite Hc; repeat split; intros; try discriminate; try reflexivity;
    try assumption; exfalso; order_to_Q; lra.
Qed.

(** X2. With finite means and finite positive limits of the three scored
    pollutants, a day is Good exactly when each of the three means is at
    most its limit, and Very Unhealthy exactly when one of them is above
    four times its limit. *)
Theorem daily_aqi_category_ends (row limits : gmap string float)
    (x1 x2 x3 l1 l2 l3 : Q) :
  row !! "PM2.5" = Some (Fin x1) -> limits !! "PM2.5" = Some (Fin l1) ->
  row !! "PM10" = Some (Fin x2) -> limits !! "PM10" = Some (Fin l2) ->
  row !! "NO2" = Some (Fin x3) -> limits !! "NO2" = Some (Fin l3) ->
  (0 < l1)%Q -> (0 < l2)%Q -> (0 < l3)%Q ->
  exists c, daily_aqi_category row limits = Ok c /\
    (c = "Good" <-> (x1 <= l1 /\ x2 <= l2 /\ x3 <= l3)%Q) /\
    (c = "Very Unhealthy" <->
       (4 * l1 < x1 \/ 4 * l2 < x2 \/ 4 * l3 < x3)%Q).
Proof.
  intros R1 L1 R2 L2 R3 L3 P1 P2 P3.
  unfold daily_aqi_category.
  rewrite (calculate_simple_aqi_Ok row limits _ _ _ _ _ _ R1 L1 R2 L2 R3 L3).
  rewrite !fdiv_Fin_pos by assumption.
  destruct (py_max_three_Fin (Qred (x1 / l1)) (Qred (x2 / l2)) (Qred (x3 / l3)))
    as [m Hm].
  pose proof (py_max_three_le (Qred (x1 / l1)) (Qred (x2 / l2)) (Qred (x3 / l3)))
    as Hle.
  rewrite Hm in *.
  exists (classify_aqi (Fin m)). split; [reflexivity |].
  destruct (classify_aqi_Fin_ends m) as [Hgood Hvery].
  split.
  - rewrite Hgood. unfold of_int. rewrite (Hle (inject_Z 1)).
    rewrite !Qred_div_le by assumption. unfold inject_Z.
    split; intros (? & ? & ?); repeat split; lra.
  - rewrite Hvery. unfold of_int.
    specialize (Hle (inject_Z 4)). rewrite !Qred_div_le in Hle by assumption.
    unfold inject_Z in *.
    destruct Hle as [Hle1 Hle2].
    destruct (fle (Fin m) (Fin (4 # 1))) eqn:E.
    + split; [discriminate |].
      destruct (Hle1 eq_refl) as (? & ? & ?).
      intros [? | [? | ?]]; lra.
    + split; [intros _ | reflexivity].
      destruct (Qlt_le_dec (4 * l1) x1) as [? | A1]; [auto |].
      destruct (Qlt_le_dec (4 * l2) x2) as [? | A2]; [auto |].
      destruct (Qlt_le_dec (4 * l3) x3) as [? | A3]; [auto |].
      assert (false = true) as Habs; [| discriminate Habs].
      apply Hle2. repeat split; lra.
Qed.

Lemma daily_aqi_category_ends_witness :
  exists c, daily_aqi_category clear_day who_limits = Ok c /\
    (c = "Good" <-> (inject_Z 10 <= inject_Z 25 /\ inject_Z 20 <= inject_Z 50 /\
                     inject_Z 20 <= inject_Z 40)%Q) /\
    (c = "Very Unhealthy" <->
       (4 * inject_Z 25 < inject_Z 10 \/ 4 * inject_Z 50 < inject_Z 20 \/
        4 * inject_Z 40 < inject_Z 20)%Q).
Proof.
  apply (daily_aqi_category_ends clear_day who_limits);
    vm_compute; reflexivity.
Defined.

Lemma fdiv_nonneg (x : Q) (l : float) :
  flt (of_int 0) l = true -> (0 <= x)%Q ->
  exists y, fdiv (Fin x) l = Fin y /\ (0 <= y)%Q.
Proof.
  intros Hl Hx. destruct l as [| | y |]; try discriminate Hl.
  - order_to_Q. rewrite fdiv_Fin_pos by lra.
    exists (Qred (x / y)). split; [reflexivity |].
    rewrite Qred_correct. apply Qle_shift_div_l; lra.
  - exists 0%Q. split; [reflexivity | lra].
Qed.

(** X3. With positive limits and non-negative finite means of the three
    scored pollutants, the score is a number and is not negative. *)
Theorem calculate_simple_aqi_nonneg (row limits : gmap string float) :
  limits_positive limits ->
  (forall k, In k scored -> exists x, row !! k = Some (Fin x) /\ (0 <= x)%Q) ->
  exists v, calculate_simple_aqi row limits = Ok v /\
            fle (of_int 0) v = true.
Proof.
  intros Hlim Hrow.
  destruct (Hrow "PM2.5") as (x1 & R1 & N1); [simpl; auto |].
  destruct (Hrow "PM10") as (x2 & R2 & N2); [simpl; auto |].
  destruct (Hrow "NO2") as (x3 & R3 & N3); [simpl; auto |].
  destruct (Hlim "PM2.5") as (l1 & L1 & P1); [simpl; auto |].
  destruct (Hlim "PM10") as (l2 & L2 & P2); [simpl; auto |].
  destruct (Hlim "NO2") as (l3 & L3 & P3); [simpl; auto |].
  destruct (fdiv_nonneg x1 l1 P1 N1) as (y1 & E1 & Y1).
  destruct (fdiv_nonneg x2 l2 P2 N2) as (y2 & E2 & Y2).
  destruct (fdiv_nonneg x3 l3 P3 N3) as (y3 & E3 & Y3).
  rewrite (calculate_simple_aqi_Ok row limits _ _ _ _ _ _ R1 L1 R2 L2 R3 L3).
  rewrite E1, E2, E3.
  destruct (py_max_three (Fin y1) (Fin y2) (Fin y3)) as (Hin & _);
    try reflexivity.
  cbv zeta in Hin. eexists. split; [reflexivity |].
  destruct Hin as [-> | [-> | ->]]; apply fle_Fin; assumption.
Qed.

Lemma clear_day_nonneg :
  forall k, In k scored -> exists x, clear_day !! k = Some (Fin x) /\ (0 <= x)%Q.
Proof.
  intros k Hk. simpl in Hk.
  destruct Hk as [<- | [<- | [<- | []]]]; eexists; split;
    try (vm_compute; reflexivity); vm_compute; discriminate.
Qed.

Lemma calculate_simple_aqi_nonneg_witness :
  exists v, calculate_simple_aqi clear_day who_limits = Ok v /\
            fle (of_int 0) v = true.
Proof.
  apply (calculate_simple_aqi_nonneg clear_day who_limits).
  - exact who_limits_positive.
  - exact clear_day_nonneg.
Defined.

(** X4. A ratio that is not a number counts differently by its place: when
    it is the PM2.5 ratio the score is NaN and the day is Very Unhealthy,
    when it is the PM10 or the NO2 ratio it is passed over, and the score
    is the maximum of the two others. *)
Theorem calculate_simple_aqi_nan (row limits : gmap string float)
    (r1 r2 r3 : float) :
  ratio row limits "PM2.5" = Some r1 ->
  ratio row limits "PM10" = Some r2 ->
  ratio row limits "NO2" = Some r3 ->
  (is_nan r1 = true ->
     calculate_simple_aqi row limits = Ok NaN /\
     daily_aqi_category row limits = Ok "Very Unhealthy") /\
  (is_nan r2 = true -> calculate_simple_aqi row limits = Ok (py_max r1 [r3])) /\
  (is_nan r3 = true -> calculate_simple_aqi row limits = Ok (py_max r1 [r2])).
Proof.
  intros H1 H2 H3.
  apply ratio_Some in H1 as (a & la & Ha & Hla & ->).
  apply ratio_Some in H2 as (b & lb & Hb & Hlb & ->).
  apply ratio_Some in H3 as (c & lc & Hc & Hlc & ->).
  unfold daily_aqi_category.
  rewrite (calculate_simple_aqi_Ok row limits _ _ _ _ _ _ Ha Hla Hb Hlb Hc Hlc).
  split; [| split].
  - destruct (fdiv a la); try discriminate. intros _.
    assert (py_max NaN [fdiv b lb; fdiv c lc] = NaN) as ->.
    { unfold py_max, fgt. simpl.
      destruct (fdiv b lb); simpl; destruct (fdiv c lc); reflexivity. }
    split; reflexivity.
  - destruct (fdiv b lb); try discriminate. intros _.
    unfold py_max, fgt. simpl. destruct (fdiv a la); reflexivity.
  - destruct (fdiv c lc); try discriminate. intros _.
    unfold py_max, fgt. simpl.
    destruct (flt (fdiv a la) (fdiv b lb)); [| destruct (fdiv a la)];
      try reflexivity.
    destruct (fdiv b lb); reflexivity.
Qed.

(** A day without a PM2.5 mean, and a day without a PM10 mean. *)
Lemma calculate_simple_aqi_nan_witness :
  (calculate_simple_aqi (<["PM2.5" := NaN]> clear_day) who_limits = Ok NaN /\
   daily_aqi_category (<["PM2.5" := NaN]> clear_day) who_limits
     = Ok "Very Unhealthy") /\
  calculate_simple_aqi (<["PM10" := NaN]> clear_day) who_limits
    = Ok (py_max (Fin (2 # 5)) [Fin (1 # 2)]).
Proof.
  split.
  - assert (ratio (<["PM2.5" := NaN]> clear_day) who_limits "PM2.5" = Some NaN)
      as H1 by (vm_compute; reflexivity).
    assert (ratio (<["PM2.5" := NaN]> clear_day) who_limits "PM10"
            = Some (Fin (2 # 5))) as H2 by (vm_compute; reflexivity).
    assert (ratio (<["PM2.5" := NaN]> clear_day) who_limits "NO2"
            = Some (Fin (1 # 2))) as H3 by (vm_compute; reflexivity).
    exact (proj1 (calculate_simple_aqi_nan _ _ _ _ _ H1 H2 H3) eq_refl).
  - assert (ratio (<["PM10" := NaN]> clear_day) who_limits "PM2.5"
            = Some (Fin (2 # 5))) as H1 by (vm_compute; reflexivity).
    assert (ratio (<["PM10" := NaN]> clear_day) who_limits "PM10" = Some NaN)
      as H2 by (vm_compute; reflexivity).
    assert (ratio (<["PM10" := NaN]> clear_day) who_limits "NO2"
            = Some (Fin (1 # 2))) as H3 by (vm_compute; reflexivity).
    exact (proj1 (proj2 (calculate_simple_aqi_nan _ _ _ _ _ H1 H2 H3)) eq_refl).
Defined.

(** X5. The [KeyError] of the scorer names the first pollutant, in the
    order PM2.5, PM10, NO2, that the aggregate or the limits table lacks:
    the pollutants before it are present in both. *)
Theorem calculate_simple_aqi_first_missing (row limits : gmap string float)
    (k : string) :
  calculate_simple_aqi row limits = Raise (KeyError k) ->
  exists before after,
    scored = (before ++ k :: after)%list /\
    (forall k', In k' before ->
       is_Some (row !! k') /\ is_Some (limits !! k')) /\
    (row !! k = None \/ limits !! k = None).
Proof.
  unfold calculate_simple_aqi, getitem, scored.
  destruct (row !! "PM2.5") as [a |] eqn:Ha; simpl;
    [| intros [= <-]; exists [], ["PM10"; "NO2"]; simpl; intuition].
  destruct (limits !! "PM2.5") as [la |] eqn:Hla; simpl;
    [| intros [= <-]; exists [], ["PM10"; "NO2"]; simpl; intuition].
  destruct (row !! "PM10") as [b |] eqn:Hb; simpl;
    [| intros [= <-]; exists ["PM2.5"], ["NO2"]; simpl;
       split; [reflexivity |]; split; [| auto];
       intros k' [<- | []]; split; eauto].
  destruct (limits !! "PM10") as [lb |] eqn:Hlb; simpl;
    [| intros [= <-]; exists ["PM2.5"], ["NO2"]; simpl;
       split; [reflexivity |]; split; [| auto];
       intros k' [<- | []]; split; eauto].
  destruct (row !! "NO2") as [c |] eqn:Hc; simpl;
    [| intros [= <-]; exists ["PM2.5"; "PM10"], []; simpl;
       split; [reflexivity |]; split; [| auto];
       intros k' [<- | [<- | []]]; split; eauto].
  destruct (limits !! "NO2") as [lc |] eqn:Hlc; simpl;
    [| intros [= <-]; exists ["PM2.5"; "PM10"], []; simpl;
       split; [reflexivity |]; split; [| auto];
       intros k' [<- | [<- | []]]; split; eauto].
  discriminate.
Qed.

Lemma calculate_simple_aqi_first_missing_witness :
  exists before after,
    scored = (before ++ "PM10" :: after)%list /\
    (forall k', In k' before ->
       is_Some ((<["PM2.5" := of_int 10]> ∅ : gmap string float) !! k') /\
       is_Some (who_limits !! k')) /\
    ((<["PM2.5" := of_int 10]> ∅ : gmap string float) !! "PM10" = None \/
     who_limits !! "PM10" = None).
Proof.
  apply (calculate_simple_aqi_first_missing (<["PM2.5" := of_int 10]> ∅) who_limits).
  vm_compute. reflexivity.
Defined.

(** X6. A limit that is the integer 0, under a positive mean, makes the
    score infinite and the day Very Unhealthy, whatever the two other
    ratios are, as long as the three ratios are numbers. *)
Theorem zero_limit_very_unhealthy (row limits : gmap string float)
    (k : string) (x : Q) (r1 r2 r3 : float) :
  In k scored -> row !! k = Some (Fin x) -> limits !! k = Some (of_int 0) ->
  (0 < x)%Q ->
  ratio row limits "PM2.5" = Some r1 ->
  ratio row limits "PM10" = Some r2 ->
  ratio row limits "NO2" = Some r3 ->
  is_nan r1 = false -> is_nan r2 = false -> is_nan r3 = false ->
  calculate_simple_aqi row limits = Ok PInf /\
  daily_aqi_category row limits = Ok "Very Unhealthy".
Proof.
  intros Hk Hx Hl Hpos H1 H2 H3 N1 N2 N3.
  assert (ratio row limits k = Some PInf) as Hinf.
  { unfold ratio. rewrite Hx, Hl. simpl.
    destruct (Qle_bool x 0) eqn:E; [| reflexivity].
    apply Qle_bool_iff in E. lra. }
  pose proof H1 as H1'. pose proof H2 as H2'. pose proof H3 as H3'.
  apply ratio_Some in H1' as (a & la & Ha & Hla & E1).
  apply ratio_Some in H2' as (b & lb & Hb & Hlb & E2).
  apply ratio_Some in H3' as (c & lc & Hc & Hlc & E3).
  assert (calculate_simple_aqi row limits = Ok (py_max r1 [r2; r3])) as Hv.
  { subst r1 r2 r3. apply calculate_simple_aqi_Ok; assumption. }
  destruct (py_max_three r1 r2 r3 N1 N2 N3) as (_ & L1 & L2 & L3).
  cbv zeta in L1, L2, L3.
  assert (py_max r1 [r2; r3] = PInf) as Hmax.
  { assert (fle PInf (py_max r1 [r2; r3]) = true) as Hle.
    { simpl in Hk. destruct Hk as [<- | [<- | [<- | []]]]; congruence. }
    destruct (py_max r1 [r2; r3]); simpl in Hle; congruence. }
  unfold daily_aqi_category. rewrite Hv, Hmax. split; reflexivity.
Qed.

Lemma zero_limit_very_unhealthy_witness :
  calculate_simple_aqi clear_day (<["PM10" := of_int 0]> who_limits) = Ok PInf /\
  daily_aqi_category clear_day (<["PM10" := of_int 0]> who_limits)
    = Ok "Very Unhealthy".
Proof.
  apply (zero_limit_very_unhealthy clear_day (<["PM10" := of_int 0]> who_limits)
           "PM10" (inject_Z 20) (Fin (2 # 5)) PInf (Fin (1 # 2)));
    try (vm_compute; reflexivity).
  simpl. auto.
Defined.

(** ** More on the forward fill *)

Section ForwardFillShape.

Context {A : Type}.
Implicit Types (col : list (option A)) (last : option A).

(** A filled value is the value carried in or a value of the column, at
    the same row or above. *)
Lemma ffill_from_source last col (i : nat) (v : A) :
  ffill_from last col !! i = Some (Some v) ->
  last = Some v \/ exists j, (j <= i)%nat /\ col !! j = Some (Some v).
Proof.
  revert last i. induction col as [| c rest IH]; intros last i Hi.
  - destruct i; discriminate Hi.
  - destruct i as [| i]; simpl in Hi.
    + destruct c as [x |].
      * right. exists O. split; [lia |]. simpl. congruence.
      * left. congruence.
    + apply IH in Hi as [Hlast | (j & Hj & Hcol)].
      * destruct c as [x |].
        -- right. exists O. split; [lia |]. simpl. congruence.
        -- left. exact Hlast.
      * right. exists (S j). split; [lia | exact Hcol].
Qed.

(** Below a carried value nothing is missing. *)
Lemma ffill_from_Some_valid (x : A) col (i : nat) :
  (i < length col)%nat ->
  exists w, ffill_from (Some x) col !! i = Some (Some w).
Proof.
  revert x i. induction col as [| c rest IH]; intros x i Hi; simpl in Hi.
  - lia.
  - destruct i as [| i]; simpl.
    + destruct c as [y |]; eauto.
    + destruct c as [y |]; apply IH; lia.
Qed.

(** A cell that is still missing after the fill has only missing cells
    above it. *)
Lemma ffill_missing_leading col (i : nat) :
  ffill col !! i = Some None ->
  forall j, (j <= i)%nat -> col !! j = Some None.
Proof.
  unfold ffill. revert i. induction col as [| c rest IH]; intros i Hi j Hj.
  - destruct i; discriminate Hi.
  - destruct c as [x |]; simpl in Hi.
    + destruct i as [| i]; simpl in Hi; [discriminate Hi |].
      assert (i < length rest)%nat as Hlen.
      { apply lookup_lt_Some in Hi. rewrite ffill_from_length in Hi. exact Hi. }
      destruct (ffill_from_Some_valid x rest i Hlen) as [w Hw]. congruence.
    + destruct j as [| j]; [reflexivity |].
      destruct i as [| i]; [lia |]. simpl in *.
      apply (IH i Hi). lia.
Qed.

End ForwardFillShape.

(** X7. The fill keeps the shape of the frame and every valid cell: the
    filled frame has the same columns, each of the same length, and a cell
    that held a value holds the same value. *)
Theorem fillna_ffill_keeps_valid (df : DataFrame) :
  dom (fillna_ffill df) = dom df /\
  forall name col, df !! name = Some col ->
    exists filled,
      fillna_ffill df !! name = Some filled /\
      length filled = length col /\
      forall i v, col !! i = Some (Some v) -> filled !! i = Some (Some v).
Proof.
  split.
  - unfold fillna_ffill. apply dom_fmap_L.
  - intros name col Hcol. exists (ffill col). split; [| split].
    + unfold fillna_ffill. rewrite lookup_fmap, Hcol. reflexivity.
    + apply ffill_from_length.
    + intros i v Hi. apply ffill_from_valid. exact Hi.
Qed.

(** X8. The fill invents nothing: a value found in a filled column stands
    in the original column at the same row or at an earlier one. *)
Theorem fillna_ffill_no_new_value (df : DataFrame) (name : string)
    (filled : column) (i : nat) (v : scalar) :
  fillna_ffill df !! name = Some filled ->
  filled !! i = Some (Some v) ->
  exists col j, df !! name = Some col /\ (j <= i)%nat /\
                col !! j = Some (Some v).
Proof.
  unfold fillna_ffill. rewrite lookup_fmap.
  destruct (df !! name) as [col |]; simpl; [| discriminate].
  intros [= <-] Hi.
  apply ffill_from_source in Hi as [Hlast | (j & Hj & Hcol)]; [discriminate |].
  exists col, j. auto.
Qed.

Lemma fillna_ffill_no_new_value_witness :
  exists col j, gap_frame !! "PM2.5" = Some col /\ (j <= 3)%nat /\
                col !! j = Some (Some (SNum 3)).
Proof.
  apply (fillna_ffill_no_new_value gap_frame "PM2.5" (ffill gap_column) 3 (SNum 3));
    reflexivity.
Defined.

(** X9. What stays missing is the leading gap and nothing else: a cell of
    a filled column is missing exactly when the cell and all the cells
    above it were missing in the original column. *)
Theorem fillna_ffill_missing_iff (df : DataFrame) (name : string)
    (col : column) (i : nat) :
  df !! name = Some col ->
  exists filled, fillna_ffill df !! name = Some filled /\
    (filled !! i = Some None <->
     forall j, (j <= i)%nat -> col !! j = Some None).
Proof.
  intros Hcol. exists (ffill col). split.
  - unfold fillna_ffill. rewrite lookup_fmap, Hcol. reflexivity.
  - split.
    + apply ffill_missing_leading.
    + apply ffill_from_leading.
Qed.

Lemma fillna_ffill_missing_iff_witness :
  exists filled, fillna_ffill gap_frame !! "PM2.5" = Some filled /\
    (filled !! 0%nat = Some None <->
     forall j, (j <= 0)%nat -> gap_column !! j = Some None).
Proof.
  apply (fillna_ffill_missing_iff gap_frame "PM2.5" gap_column 0). reflexivity.
Defined.

(** ** More on [load_data] *)

Lemma traverse_length {A B : Type} (f : A -> result B) (l : list A) (l' : list B) :
  traverse f l = Ok l' -> length l' = length l.
Proof.
  revert l'. induction l as [| x rest IH]; intros l' Hl; simpl in Hl.
  - injection Hl as <-. reflexivity.
  - destruct (f x) as [b |]; [| discriminate Hl]. simpl in Hl.
    destruct (traverse f rest) as [bs |]; [| discriminate Hl]. simpl in Hl.
    injection Hl as <-. simpl. rewrite (IH bs eq_refl). reflexivity.
Qed.

Lemma traverse_Ok_iff {A B : Type} (f : A -> result B) (l : list A) :
  (exists l', traverse f l = Ok l') <->
  (forall a, In a l -> exists b, f a = Ok b).
Proof.
  induction l as [| x rest IH]; simpl.
  - split; [intros _ a [] | eauto].
  - split.
    + intros [l' Hl] a [<- | Ha].
      * destruct (f x) as [b |]; [eauto | discriminate Hl].
      * destruct (f x) as [b |]; [| discriminate Hl]. simpl in Hl.
        destruct (traverse f rest) as [bs |] eqn:Hr; [| discriminate Hl].
        apply (proj1 IH); eauto.
    + intros Hall. destruct (Hall x) as [b Hb]; [auto |].
      destruct (proj2 IH) as [bs Hbs]; [intros a Ha; apply Hall; auto |].
      rewrite Hb, Hbs. simpl. eauto.
Qed.

Section LoadDataFrame.

Variable assemble : cell -> cell -> cell -> cell -> option (option Z).
Variable dayofweek : Z -> Z.

(** A successful run, step by step. *)
Lemma load_data_Ok_inv (csv df : DataFrame) :
  load_data assemble dayofweek csv = Ok df ->
  exists ycol mcol dcol hcol datetime season,
    fillna_ffill csv !! "year" = Some ycol /\
    fillna_ffill csv !! "month" = Some mcol /\
    fillna_ffill csv !! "day" = Some dcol /\
    fillna_ffill csv !! "hour" = Some hcol /\
    traverse (to_datetime_row assemble) (zip (zip (zip ycol mcol) dcol) hcol)
      = Ok datetime /\
    traverse season_of_cell mcol = Ok season /\
    df = <["day_name" :=
            day_name_of_cell <$> (dayofweek_of_cell dayofweek <$> datetime)]>
         (<["day_of_week" := dayofweek_of_cell dayofweek <$> datetime]>
         (<["season" := season]>
         (<["datetime" := datetime]> (fillna_ffill csv)))).
Proof.
  intros Hdf.
  destruct (load_data_missing_column assemble dayofweek csv)
    as [(ycol & mcol & dcol & hcol & Hy & Hm & Hd & Hh) | (k & msg & _ & _ & He)];
    [| congruence].
  rewrite (load_data_steps assemble dayofweek csv ycol mcol dcol hcol Hy Hm Hd Hh)
    in Hdf.
  destruct (traverse (to_datetime_row assemble) _) as [datetime |] eqn:Hdt;
    [| discriminate Hdf]. simpl in Hdf.
  destruct (traverse season_of_cell mcol) as [season |] eqn:Hs;
    [| discriminate Hdf]. simpl in Hdf.
  injection Hdf as <-.
  exists ycol, mcol, dcol, hcol, datetime, season. auto 10.
Qed.

(** X10. [load_data] succeeds exactly when the file has the year, month,
    day and hour columns, the datetime assembly accepts every row of the
    filled frame, and every filled month is a number or missing. *)
Theorem load_data_succeeds_iff (csv : DataFrame) :
  (exists df, load_data assemble dayofweek csv = Ok df) <->
  (exists ycol mcol dcol hcol,
     fillna_ffill csv !! "year" = Some ycol /\
     fillna_ffill csv !! "month" = Some mcol /\
     fillna_ffill csv !! "day" = Some dcol /\
     fillna_ffill csv !! "hour" = Some hcol /\
     (forall y m d h, In (y, m, d, h) (zip (zip (zip ycol mcol) dcol) hcol) ->
        assemble y m d h <> None) /\
     (forall c, In c mcol -> c = None \/ exists q, c = Some (SNum q))).
Proof.
  split.
  - intros [df Hdf].
    destruct (load_data_Ok_inv csv df Hdf)
      as (ycol & mcol & dcol & hcol & datetime & season
          & Hy & Hm & Hd & Hh & Hdt & Hs & _).
    exists ycol, mcol, dcol, hcol. repeat split; try assumption.
    + intros y m d h Hin.
      destruct (proj1 (traverse_Ok_iff _ _) (ex_intro _ _ Hdt) _ Hin) as [b Hb].
      simpl in Hb. destruct (assemble y m d h); [discriminate | discriminate Hb].
    + intros c Hin.
      destruct (proj1 (traverse_Ok_iff _ _) (ex_intro _ _ Hs) _ Hin) as [b Hb].
      destruct c as [[q | s | t] |]; simpl in Hb; try discriminate Hb; eauto.
  - intros (ycol & mcol & dcol & hcol & Hy & Hm & Hd & Hh & Hasm & Hnum).
    rewrite (load_data_steps assemble dayofweek csv ycol mcol dcol hcol Hy Hm Hd Hh).
    destruct (proj2 (traverse_Ok_iff (to_datetime_row assemble)
                       (zip (zip (zip ycol mcol) dcol) hcol))) as [datetime ->].
    { intros [[[y m] d] h] Hin. simpl.
      destruct (assemble y m d h) eqn:E; [eauto |].
      destruct (Hasm y m d h Hin E). }
    destruct (proj2 (traverse_Ok_iff season_of_cell mcol)) as [season ->].
    { intros c Hin. destruct (Hnum c Hin) as [-> | [q ->]]; simpl; eauto. }
    simpl. eauto.
Qed.

(** X11. A successful [load_data] adds its four columns and leaves every
    other column of the file as the forward fill made it. *)
Theorem load_data_keeps_columns (csv df : DataFrame) :
  load_data assemble dayofweek csv = Ok df ->
  (forall name, In name derived_columns -> is_Some (df !! name)) /\
  (forall name, ~ In name derived_columns ->
     df !! name = fillna_ffill csv !! name).
Proof.
  intros Hdf.
  destruct (load_data_Ok_inv csv df Hdf)
    as (ycol & mcol & dcol & hcol & datetime & season & _ & _ & _ & _ & _ & _ & ->).
  split.
  - intros name Hin. simpl in Hin.
    destruct Hin as [<- | [<- | [<- | [<- | []]]]].
    + rewrite !lookup_insert_ne by discriminate. rewrite lookup_insert_eq. eauto.
    + rewrite !lookup_insert_ne by discriminate. rewrite lookup_insert_eq. eauto.
    + rewrite !lookup_insert_ne by discriminate. rewrite lookup_insert_eq. eauto.
    + rewrite lookup_insert_eq. eauto.
  - intros name Hout. simpl in Hout.
    rewrite !lookup_insert_ne by (intros <-; apply Hout; auto 6).
    reflexivity.
Qed.

(** X12. A successful [load_data] keeps the frame rectangular: when every
    column of the file has [n] rows, so has every column of the result, the
    four derived ones included. *)
Theorem load_data_rectangular (csv df : DataFrame) (n : nat) :
  (forall name col, csv !! name = Some col -> length col = n) ->
  load_data assemble dayofweek csv = Ok df ->
  forall name col, df !! name = Some col -> length col = n.
Proof.
  intros Hrect Hdf.
  assert (forall name col, fillna_ffill csv !! name = Some col -> length col = n)
    as Hfill.
  { intros name col. unfold fillna_ffill. rewrite lookup_fmap.
    destruct (csv !! name) as [c |] eqn:Hc; simpl; [| discriminate].
    intros [= <-]. unfold ffill. rewrite ffill_from_length. eauto. }
  destruct (load_data_Ok_inv csv df Hdf)
    as (ycol & mcol & dcol & hcol & datetime & season
        & Hy & Hm & Hd & Hh & Hdt & Hs & ->).
  assert (length datetime = n) as Ldt.
  { rewrite (traverse_length _ _ _ Hdt), !length_zip.
    rewrite (Hfill _ _ Hy), (Hfill _ _ Hm), (Hfill _ _ Hd), (Hfill _ _ Hh). lia. }
  assert (length season = n) as Ls.
  { rewrite (traverse_length _ _ _ Hs). eauto. }
  intros name col.
  rewrite lookup_insert. destruct (decide ("day_name" = name));
    [intros [= <-]; rewrite !length_fmap; exact Ldt |].
  rewrite lookup_insert. destruct (decide ("day_of_week" = name));
    [intros [= <-]; rewrite !length_fmap; exact Ldt |].
  rewrite lookup_insert. destruct (decide ("season" = name));
    [intros [= <-]; exact Ls |].
  rewrite lookup_insert. destruct (decide ("datetime" = name));
    [intros [= <-]; exact Ldt |].
  apply Hfill.
Qed.

End LoadDataFrame.

(** The sample file loads under the sample calendar. *)
Lemma sample_load_data :
  exists df, load_data sample_assemble sample_dayofweek gap_month_csv = Ok df.
Proof. eexists. vm_compute. reflexivity. Qed.

Lemma load_data_keeps_columns_witness :
  exists df,
    load_data sample_assemble sample_dayofweek gap_month_csv = Ok df /\
    (forall name, In name derived_columns -> is_Some (df !! name)) /\
    (forall name, ~ In name derived_columns ->
       df !! name = fillna_ffill gap_month_csv !! name).
Proof.
  destruct sample_load_data as [df E].
  exists df. split; [exact E |].
  exact (load_data_keeps_columns sample_assemble sample_dayofweek
           gap_month_csv df E).
Defined.

Lemma gap_month_csv_rectangular (name : string) (col : column) :
  gap_month_csv !! name = Some col -> length col = 3%nat.
Proof.
  unfold gap_month_csv.
  repeat (rewrite lookup_insert;
          destruct (decide (_ = name)); [intros [= <-]; reflexivity |]).
  rewrite lookup_empty. discriminate.
Qed.

Lemma load_data_rectangular_witness :
  exists df,
    load_data sample_assemble sample_dayofweek gap_month_csv = Ok df /\
    forall name col, df !! name = Some col -> length col = 3%nat.
Proof.
  destruct sample_load_data as [df E].
  exists df. split; [exact E |].
  exact (load_data_rectangular sample_assemble sample_dayofweek
           gap_month_csv df 3 gap_month_csv_rectangular E).
Defined.

Section LoadDataRows.

Variable assemble : cell -> cell -> cell -> cell -> option (option Z).
Variable dayofweek : Z -> Z.

(** X13. The months are filled before they are binned: a row whose month
    is missing in the file, below a row with a month and with only missing
    months in between, gets the season of that month; a row with no month
    at or above it gets no season. *)
Theorem load_data_season_of_missing_month (csv df : DataFrame)
    (mcol : column) (i : nat) :
  load_data assemble dayofweek csv = Ok df ->
  csv !! "month" = Some mcol ->
  mcol !! i = Some None ->
  exists scol, df !! "season" = Some scol /\
    (forall j m, (j < i)%nat -> mcol !! j = Some (Some (SNum m)) ->
       (forall k, (j < k < i)%nat -> mcol !! k = Some None) ->
       scol !! i = Some (SStr <$> season_of_month m)) /\
    ((forall j, (j < i)%nat -> mcol !! j = Some None) ->
       scol !! i = Some None).
Proof.
  intros Hdf Hm Hi.
  destruct (load_data_Ok_inv assemble dayofweek csv df Hdf)
    as (ycol & mcol' & dcol & hcol & datetime & season
        & _ & Hm' & _ & _ & _ & Hs & ->).
  assert (mcol' = ffill mcol) as ->.
  { unfold fillna_ffill in Hm'. rewrite lookup_fmap, Hm in Hm'.
    simpl in Hm'. congruence. }
  exists season. split; [| split].
  - rewrite !lookup_insert_ne by discriminate. apply lookup_insert_eq.
  - intros j m Hji Hj Hgap.
    assert (ffill mcol !! i = Some (Some (SNum m))) as Hfilled.
    { apply (ffill_from_nearest None mcol i j (SNum m) Hji Hj).
      intros k Hk. destruct (decide (k = i)) as [-> | Hne]; [exact Hi |].
      apply Hgap. lia. }
    destruct (traverse_Ok _ _ _ Hs i _ Hfilled) as (b & Hb & Hlook).
    simpl in Hb. injection Hb as <-. exact Hlook.
  - intros Hall.
    assert (ffill mcol !! i = Some None) as Hfilled.
    { apply ffill_from_leading.
      intros j Hj. destruct (decide (j = i)) as [-> | Hne]; [exact Hi |].
      apply Hall. lia. }
    destruct (traverse_Ok _ _ _ Hs i _ Hfilled) as (b & Hb & Hlook).
    simpl in Hb. injection Hb as <-. exact Hlook.
Qed.

(** X14. The day name of a row follows its timestamp: a row without a
    timestamp has no day name, and a row whose timestamp has the weekday
    [w], from 0 for Monday to 6 for Sunday, has the name at place [w] of
    Monday, ..., Sunday. *)
Theorem load_data_day_name (csv df : DataFrame) :
  load_data assemble dayofweek csv = Ok df ->
  exists datetime names,
    df !! "datetime" = Some datetime /\
    df !! "day_name" = Some names /\
    length names = length datetime /\
    forall i,
      (datetime !! i = Some None -> names !! i = Some None) /\
      (forall t, datetime !! i = Some (Some (STime t)) ->
         (0 <= dayofweek t < 7)%Z ->
         exists name, day_names !! Z.to_nat (dayofweek t) = Some name /\
                      names !! i = Some (Some (SStr name))).
Proof.
  intros Hdf.
  destruct (load_data_Ok_inv assemble dayofweek csv df Hdf)
    as (ycol & mcol & dcol & hcol & datetime & season
        & _ & _ & _ & _ & _ & _ & ->).
  exists datetime,
    (day_name_of_cell <$> (dayofweek_of_cell dayofweek <$> datetime)).
  split; [| split; [| split]].
  - rewrite !lookup_insert_ne by discriminate. apply lookup_insert_eq.
  - apply lookup_insert_eq.
  - rewrite !length_fmap. reflexivity.
  - intros i. split.
    + intros Hi. rewrite !list_lookup_fmap, Hi. reflexivity.
    + intros t Hi Hrange. rewrite !list_lookup_fmap, Hi.
      cbn [fmap option_fmap option_map dayofweek_of_cell day_name_of_cell].
      rewrite Qfloor_Z.
      assert (Qeq_bool (inject_Z (dayofweek t)) (inject_Z (dayofweek t)) = true)
        as -> by (apply Qeq_bool_iff; reflexivity).
      assert ((0 <=? dayofweek t)%Z = true) as -> by lia.
      cbn [andb].
      assert (Z.to_nat (dayofweek t) < length day_names)%nat as Hlt
        by (simpl; lia).
      apply lookup_lt_is_Some_2 in Hlt as [name Hname].
      exists name. rewrite Hname. split; reflexivity.
Qed.

End LoadDataRows.

Lemma load_data_season_of_missing_month_witness :
  exists df scol,
    load_data sample_assemble sample_dayofweek gap_month_csv = Ok df /\
    df !! "season" = Some scol /\
    scol !! 1%nat = Some (Some (SStr "Spring")).
Proof.
  destruct sample_load_data as [df E].
  destruct (load_data_season_of_missing_month sample_assemble sample_dayofweek
              gap_month_csv df [Some (SNum 4); None; Some (SNum 7)] 1 E
              eq_refl eq_refl) as (scol & Hs & Hnear & _).
  exists df, scol. split; [exact E |]. split; [exact Hs |].
  apply (Hnear 0%nat 4%Q); [lia | reflexivity | intros k Hk; lia].
Defined.

Lemma load_data_day_name_witness :
  exists df datetime names,
    load_data sample_assemble sample_dayofweek gap_month_csv = Ok df /\
    df !! "datetime" = Some datetime /\
    df !! "day_name" = Some names /\
    length names = length datetime.
Proof.
  destruct sample_load_data as [df E].
  destruct (load_data_day_name sample_assemble sample_dayofweek
              gap_month_csv df E) as (datetime & names & Hd & Hn & Hlen & _).
  exists df, datetime, names. auto.
Defined.

(** ** The pages of [main] *)

Lemma page_content_Some (p : string) (v : view) :
  page_content p = Some v -> p = page_of v.
Proof.
  unfold page_content.
  destruct (String.eqb_spec p "Pendahuluan") as [E | _];
    [intros [= <-]; exact E |].
  destruct (String.eqb_spec p "Q1: Variasi Polusi per Musim") as [E | _];
    [intros [= <-]; exact E |].
  destruct (String.eqb_spec p "Q2: Hubungan Cuaca & Kualitas Udara") as [E | _];
    [intros [= <-]; exact E |].
  destruct (String.eqb_spec p "Q3: Pola Polusi Harian & Jam") as [E | _];
    [intros [= <-]; exact E |].
  destruct (String.eqb_spec p "Q4: Tren Kualitas Udara 2013-2017") as [E | _];
    [intros [= <-]; exact E |].
  discriminate.
Qed.

Lemma page_content_page_of (v : view) : page_content (page_of v) = Some v.
Proof. destruct v; vm_compute; reflexivity. Qed.

Lemma page_of_pages (v : view) : In (page_of v) pages.
Proof. destruct v; cbn [page_of pages In]; auto 6. Qed.

(** X15. The sidebar and the dispatch agree: a string opens a view exactly
    when it is one of the five pages, two pages never open the same view,
    and every view is opened by some page. *)
Theorem page_content_pages :
  (forall p, is_Some (page_content p) <-> In p pages) /\
  (forall p q, In p pages -> page_content p = page_content q -> p = q) /\
  (forall v, exists p, In p pages /\ page_content p = Some v).
Proof.
  assert (forall p, In p pages -> exists v, p = page_of v) as Hpages.
  { intros p Hp. cbn [pages In] in Hp.
    destruct Hp as [<- | [<- | [<- | [<- | [<- | []]]]]].
    - exists show_introduction. reflexivity.
    - exists show_seasonal_variation. reflexivity.
    - exists show_weather_relationship. reflexivity.
    - exists show_time_patterns. reflexivity.
    - exists show_yearly_trends. reflexivity. }
  split; [| split].
  - intros p. split.
    + intros [v Hv]. rewrite (page_content_Some p v Hv). apply page_of_pages.
    + intros Hp. destruct (Hpages p Hp) as [v ->].
      rewrite page_content_page_of. eauto.
  - intros p q Hp Heq. destruct (Hpages p Hp) as [v ->].
    rewrite page_content_page_of in Heq. symmetry in Heq.
    symmetry. apply page_content_Some. exact Heq.
  - intros v. exists (page_of v). split.
    + apply page_of_pages.
    + apply page_content_page_of.
Qed.

(** ** Days above the limit, year by year *)

Lemma size_by_year_lookup (years : list Z) (y : Z) :
  size_by_year years !! y =
    match count_occ Z.eq_dec years y with
    | O => None
    | S n => Some (S n)
    end.
Proof.
  induction years as [| x rest IH]; simpl.
  - apply lookup_empty.
  - destruct (Z.eq_dec x y) as [-> | Hne].
    + rewrite lookup_insert_eq, IH.
      destruct (count_occ Z.eq_dec rest y); reflexivity.
    + rewrite lookup_insert_ne by exact Hne. exact IH.
Qed.

Lemma count_occ_years_above (years : list Z) (col : list float) (limit : float)
    (y : Z) :
  (count_occ Z.eq_dec (years_above years col limit) y
   <= count_occ Z.eq_dec years y)%nat.
Proof.
  unfold years_above. revert col.
  induction years as [| x rest IH]; intros [| c col]; simpl; try lia.
  specialize (IH col). unfold fmap in *.
  destruct (fgt c limit); simpl; destruct (Z.eq_dec x y); lia.
Qed.

Lemma yearly_percentage_cases (years : list Z) (col : list float)
    (limit : float) (y : Z) :
  yearly_percentage years col limit !! y =
    match count_occ Z.eq_dec years y,
          count_occ Z.eq_dec (years_above years col limit) y with
    | O, _ => None
    | S _, O => Some NaN
    | S n, S k =>
        Some (np_round 1 (fmul (fdiv (of_int (Z.of_nat (S k)))
                                     (of_int (Z.of_nat (S n))))
                               (of_int 100)))
    end.
Proof.
  pose proof (count_occ_years_above years col limit y) as Hle.
  unfold yearly_percentage, series_div.
  rewrite lookup_fmap, lookup_merge, !lookup_fmap, !size_by_year_lookup.
  destruct (count_occ Z.eq_dec years y) as [| n'];
    destruct (count_occ Z.eq_dec (years_above years col limit) y) as [| k'];
    simpl; try reflexivity; lia.
Qed.

(** X16. The table of the days above a limit tells a year without such
    days from the others by NaN, not by zero: a year without days has no
    entry, and a year with [n] days of which [k] have a mean strictly above
    the limit has an entry that is NaN exactly when [k] is zero. *)
Theorem yearly_percentage_lookup (years : list Z) (col : list float)
    (limit : float) (y : Z) :
  let n := count_occ Z.eq_dec years y in
  let k := count_occ Z.eq_dec (years_above years col limit) y in
  (n = O -> yearly_percentage years col limit !! y = None) /\
  (n <> O ->
     exists v, yearly_percentage years col limit !! y = Some v /\
               (is_nan v = true <-> k = O)).
Proof.
  intros n k. subst n k.
  rewrite yearly_percentage_cases.
  destruct (count_occ Z.eq_dec years y) as [| n'];
    destruct (count_occ Z.eq_dec (years_above years col limit) y) as [| k'];
    (split; [intros; first [reflexivity | congruence] |]); intros Hn;
    try congruence; eexists; (split; [reflexivity |]).
  - split; reflexivity.
  - split; [| discriminate]. simpl. discriminate.
Qed.

Lemma yearly_percentage_lookup_witness :
  (exists v,
     yearly_percentage sample_years sample_pm10 (of_int 50) !! 2016%Z = Some v /\
     (is_nan v = true <->
      count_occ Z.eq_dec (years_above sample_years sample_pm10 (of_int 50))
        2016%Z = O)) /\
  (exists v,
     yearly_percentage sample_years sample_pm10 (of_int 50) !! 2015%Z = Some v /\
     (is_nan v = true <->
      count_occ Z.eq_dec (years_above sample_years sample_pm10 (of_int 50))
        2015%Z = O)).
Proof.
  split.
  - apply (proj2 (yearly_percentage_lookup sample_years sample_pm10
                    (of_int 50) 2016)).
    vm_compute. discriminate.
  - apply (proj2 (yearly_percentage_lookup sample_years sample_pm10
                    (of_int 50) 2015)).
    vm_compute. discriminate.
Defined.

(** *** Rounding *)

Lemma round_half_even_bounds (q : Q) :
  (Qfloor q <= round_half_even q <= Qfloor q + 1)%Z.
Proof.
  unfold round_half_even.
  destruct (Qcompare _ _); [destruct (Z.even _) | |]; lia.
Qed.

Lemma round_half_even_inject_Z (z : Z) : round_half_even (inject_Z z) = z.
Proof.
  unfold round_half_even. rewrite Qfloor_Z.
  destruct (Qcompare_spec (inject_Z z - inject_Z z) (1 # 2)) as [H | H | H];
    [exfalso; lra | reflexivity | exfalso; lra].
Qed.

Lemma round_half_even_mono (q1 q2 : Q) :
  (q1 <= q2)%Q -> (round_half_even q1 <= round_half_even q2)%Z.
Proof.
  intros Hq.
  pose proof (Qfloor_resp_le q1 q2 Hq) as Hf.
  destruct (Z.eq_dec (Qfloor q1) (Qfloor q2)) as [E | Hne].
  - unfold round_half_even. rewrite E.
    destruct (Qcompare_spec (q1 - inject_Z (Qfloor q2)) (1 # 2)) as [H1 | H1 | H1];
      destruct (Qcompare_spec (q2 - inject_Z (Qfloor q2)) (1 # 2)) as [H2 | H2 | H2];
      try destruct (Z.even (Qfloor q2)); try lia; exfalso; lra.
  - pose proof (round_half_even_bounds q1). pose proof (round_half_even_bounds q2).
    lia.
Qed.

(** Rounding keeps a value between two integers between them. *)
Lemma np_round_range (decimals : nat) (lo hi : Z) (q : Q) :
  (inject_Z lo <= q <= inject_Z hi)%Q ->
  exists p, np_round decimals (Fin q) = Fin p /\
            (inject_Z lo <= p <= inject_Z hi)%Q.
Proof.
  intros [Hlo Hhi]. simpl.
  set (s := (10 ^ Z.of_nat decimals)%Z).
  assert (0 < s)%Z as Hs by (apply Z.pow_pos_nonneg; lia).
  assert (0 < inject_Z s)%Q as HsQ.
  { unfold Qlt. simpl. lia. }
  eexists. split; [reflexivity |].
  rewrite Qred_correct.
  assert (lo * s <= round_half_even (q * inject_Z s) <= hi * s)%Z as [Rlo Rhi].
  { rewrite <- (round_half_even_inject_Z (lo * s)).
    rewrite <- (round_half_even_inject_Z (hi * s)).
    split; apply round_half_even_mono; rewrite inject_Z_mult;
      apply Qmult_le_compat_r; assumption || (apply Qlt_le_weak; exact HsQ). }
  split.
  - apply Qle_shift_div_l; [exact HsQ |].
    rewrite <- inject_Z_mult. rewrite <- Zle_Qle. exact Rlo.
  - apply Qle_shift_div_r; [exact HsQ |].
    rewrite <- inject_Z_mult. rewrite <- Zle_Qle. exact Rhi.
Qed.

(** X17. An entry of the table of days above a limit is NaN or a
    percentage between 0 and 100. *)
Theorem yearly_percentage_range (years : list Z) (col : list float)
    (limit : float) (y : Z) (v : float) :
  yearly_percentage years col limit !! y = Some v ->
  v = NaN \/ exists p, v = Fin p /\ (0 <= p <= 100)%Q.
Proof.
  rewrite yearly_percentage_cases.
  pose proof (count_occ_years_above years col limit y) as Hle.
  destruct (count_occ Z.eq_dec years y) as [| n]; [discriminate |].
  destruct (count_occ Z.eq_dec (years_above years col limit) y) as [| k];
    [intros [= <-]; auto |].
  intros [= <-]. right.
  assert (0 < inject_Z (Z.of_nat (S n)))%Q as Hn.
  { unfold Qlt. simpl. lia. }
  destruct (np_round_range 1 0 100
              (Qred (Qred (inject_Z (Z.of_nat (S k)) / inject_Z (Z.of_nat (S n)))
                     * inject_Z 100))) as (p & Hp & Hrange).
  { rewrite !Qred_correct.
    assert (0 <= inject_Z (Z.of_nat (S k)) / inject_Z (Z.of_nat (S n)) <= 1)%Q
      as [H0 H1].
    { split.
      - apply Qle_shift_div_l; [exact Hn |].
        unfold Qle. simpl. lia.
      - apply Qle_shift_div_r; [exact Hn |].
        rewrite Qmult_1_l. rewrite <- Zle_Qle. lia. }
    set (r := (inject_Z (Z.of_nat (S k)) / inject_Z (Z.of_nat (S n)))%Q) in *.
    unfold inject_Z. split; lra. }
  exists p. split; [exact Hp | exact Hrange].
Qed.

Lemma yearly_percentage_range_witness :
  Fin 50 = NaN \/ exists p, Fin 50 = Fin p /\ (0 <= p <= 100)%Q.
Proof.
  apply (yearly_percentage_range sample_years sample_pm10 (of_int 50) 2015).
  vm_compute. reflexivity.
Defined.

(** X18. The table of one pollutant fails with the [KeyError] of the
    pollutant when the frame of daily means has no such column; otherwise
    it has an entry for every year of the frame, the years without a day
    above the limit included, and for no other year. *)
Theorem exceeding_days_of_index (years : list Z)
    (daily_data : gmap string (list float)) (pollutant : string) (limit : float) :
  match daily_data !! pollutant with
  | None =>
      exceeding_days_of years daily_data pollutant limit
        = Raise (KeyError pollutant)
  | Some col =>
      exists table,
        exceeding_days_of years daily_data pollutant limit = Ok table /\
        forall y, is_Some (table !! y) <-> In y years
  end.
Proof.
  unfold exceeding_days_of, getitem.
  destruct (daily_data !! pollutant) as [col |]; [| reflexivity].
  eexists. split; [reflexivity |].
  intros y. rewrite yearly_percentage_cases.
  rewrite (count_occ_In Z.eq_dec years y).
  destruct (count_occ Z.eq_dec years y) as [| n].
  - split; [intros [v Hv]; discriminate | lia].
  - destruct (count_occ Z.eq_dec (years_above years col limit) y);
      split; eauto; lia.
Qed.

(** ** The change from 2013 to 2017 *)

Lemma loc_Ok (yearly_avg : gmap Z float) (year : Z) (v : float) :
  yearly_avg !! year = Some v -> loc yearly_avg year = Ok v.
Proof. unfold loc. intros ->. reflexivity. Qed.

Lemma np_round_sign (q : Q) :
  ((0 <= q)%Q -> exists p, np_round 2 (Fin q) = Fin p /\ (0 <= p)%Q) /\
  ((q <= -1 # 100)%Q -> exists p, np_round 2 (Fin q) = Fin p /\ (p < 0)%Q).
Proof.
  assert (0 < inject_Z (10 ^ Z.of_nat 2))%Q as Hs by reflexivity.
  split; intros Hq; (eexists; split; [reflexivity |]); rewrite Qred_correct.
  - apply Qle_shift_div_l; [exact Hs |].
    rewrite Qmult_0_l. change 0%Q with (inject_Z 0). rewrite <- Zle_Qle.
    rewrite <- (round_half_even_inject_Z 0) at 1.
    apply round_half_even_mono.
    change (inject_Z (10 ^ Z.of_nat 2)) with (100 # 1)%Q.
    change (inject_Z 0) with 0%Q. lra.
  - apply Qlt_shift_div_r; [exact Hs |].
    rewrite Qmult_0_l. change 0%Q with (inject_Z 0). rewrite <- Zlt_Qlt.
    assert (round_half_even (q * inject_Z (10 ^ Z.of_nat 2)) <= -1)%Z; [| lia].
    rewrite <- (round_half_even_inject_Z (-1)).
    apply round_half_even_mono.
    change (inject_Z (10 ^ Z.of_nat 2)) with (100 # 1)%Q.
    change (inject_Z (-1)) with (-1 # 1)%Q. lra.
Qed.

(** X20. The colour of the bar of a pollutant whose 2013 and 2017 means
    are finite and not negative: red when the mean did not decrease, also
    when it did not change; green when it decreased by at least one part in
    ten thousand of the 2013 mean; and red when the 2013 mean is zero. *)
Theorem bar_color_of_change (yearly_avg : gmap Z float) (a13 a17 : Q) :
  yearly_avg !! 2013%Z = Some (Fin a13) ->
  yearly_avg !! 2017%Z = Some (Fin a17) ->
  (0 <= a13)%Q -> (0 <= a17)%Q ->
  exists v, pct_change yearly_avg = Ok v /\
    (0 < a13 -> a13 <= a17 -> bar_color v = "red")%Q /\
    (0 < a13 -> a17 <= a13 * (9999 # 10000) -> bar_color v = "green")%Q /\
    (a13 == 0 -> bar_color v = "red")%Q.
Proof.
  intros H13 H17 N13 N17.
  unfold pct_change. rewrite (loc_Ok _ _ _ H17), (loc_Ok _ _ _ H13).
  cbn [mbind result_bind].
  eexists. split; [reflexivity |].
  split; [| split].
  - intros Hpos Hup. cbn [fsub]. rewrite fdiv_Fin_pos by exact Hpos.
    cbn [fmul of_int].
    destruct (proj1 (np_round_sign
                (Qred (Qred (Qred (a17 - a13) / a13) * inject_Z 100))))
      as (p & -> & Hp).
    { rewrite !Qred_correct.
      assert (0 <= (a17 - a13) / a13)%Q as H.
      { apply Qle_shift_div_l; [exact Hpos |]. lra. }
      set (r := ((a17 - a13) / a13)%Q) in *. unfold inject_Z. lra. }
    unfold bar_color.
    assert (flt (Fin p) (of_int 0) = false) as ->; [| reflexivity].
    order_to_Q. exact Hp.
  - intros Hpos Hdown. cbn [fsub]. rewrite fdiv_Fin_pos by exact Hpos.
    cbn [fmul of_int].
    destruct (proj2 (np_round_sign
                (Qred (Qred (Qred (a17 - a13) / a13) * inject_Z 100))))
      as (p & -> & Hp).
    { rewrite !Qred_correct.
      assert ((a17 - a13) / a13 <= -1 # 10000)%Q as H.
      { apply Qle_shift_div_r; [exact Hpos |]. lra. }
      set (r := ((a17 - a13) / a13)%Q) in *. unfold inject_Z. lra. }
    unfold bar_color.
    assert (flt (Fin p) (of_int 0) = true) as ->; [| reflexivity].
    order_to_Q. exact Hp.
  - intros Hzero. cbn [fsub fdiv].
    pose proof Hzero as Hz. apply Qeq_bool_iff in Hz. rewrite Hz.
    destruct (Qle_bool (Qred (a17 - a13)) 0) eqn:E1; [| reflexivity].
    destruct (Qle_bool 0 (Qred (a17 - a13))) eqn:E2; [reflexivity |].
    exfalso. apply (proj1 (fle_Fin_false _ _)) in E2.
    rewrite Qred_correct in E2. lra.
Qed.

Lemma bar_color_of_change_witness :
  exists v,
    pct_change (<[2013%Z := of_int 80]> (<[2017%Z := of_int 80]> ∅)) = Ok v /\
    bar_color v = "red".
Proof.
  destruct (bar_color_of_change
              (<[2013%Z := of_int 80]> (<[2017%Z := of_int 80]> ∅))
              (inject_Z 80) (inject_Z 80))
    as (v & Hv & Hred & _ & _); try reflexivity; try discriminate.
  exists v. split; [exact Hv |].
  apply Hred; [reflexivity | discriminate].
Defined.

(** ** Best and worst times *)

Section Extremes.

Context {L : Type}.
Variable better : Q -> Q -> bool.
Hypothesis better_trans :
  forall a b c, better a b = true -> better b c = true -> better a c = true.
Hypothesis better_cotrans :
  forall a b c, better a b = true -> better c b = false -> better a c = true.

(** The scan returns the candidate it was given, which then no value of
    the series beats, or the first value of the series that beats the
    candidate and every value before it, and that no value after it
    beats. *)
Lemma idx_extreme_from_spec (s : list (L * option Q)) (best : option (L * Q)) :
  (idx_extreme_from better best s = best /\
   forall l w, In (l, Some w) s ->
     exists b, best = Some b /\ better w (snd b) = false) \/
  (exists h v pre post,
      idx_extreme_from better best s = Some (h, v) /\
      s = (pre ++ (h, Some v) :: post)%list /\
      (forall l w, In (l, Some w) pre -> better v w = true) /\
      (forall b, best = Some b -> better v (snd b) = true) /\
      (forall l w, In (l, Some w) post -> better w v = false)).
Proof.
  revert best. induction s as [| [l [w |]] rest IH]; intros best.
  - left. split; [reflexivity | intros ? ? []].
  - (* a value *)
    assert (forall hb b,
              better w b = true \/ best = None ->
              (forall c, best = Some c -> c = (hb, b)) ->
              exists h v pre post,
                idx_extreme_from better (Some (l, w)) rest = Some (h, v) /\
                (l, Some w) :: rest = (pre ++ (h, Some v) :: post)%list /\
                (forall l' w', In (l', Some w') pre -> better v w' = true) /\
                (forall c, best = Some c -> better v (snd c) = true) /\
                (forall l' w', In (l', Some w') post -> better w' v = false))
      as Htake.
    { intros hb b Hwb Hbest.
      destruct (IH (Some (l, w)))
        as [[Hr Hrest] | (h & v & pre & post & Hr & -> & Hpre & Hcand & Hpost)].
      - exists l, w, [], rest. split; [exact Hr |]. split; [reflexivity |].
        split; [intros ? ? [] |]. split.
        + intros c Hc. destruct Hwb as [Hwb | Hnone]; [| congruence].
          rewrite (Hbest c Hc). exact Hwb.
        + intros l' w' Hin. destruct (Hrest l' w' Hin) as (c & [= <-] & Hc).
          exact Hc.
      - exists h, v, ((l, Some w) :: pre), post.
        split; [exact Hr |]. split; [reflexivity |].
        pose proof (Hcand (l, w) eq_refl) as Hvw. simpl in Hvw.
        split; [| split; [| exact Hpost]].
        + intros l' w' [[= <- <-] | Hin]; [exact Hvw | eauto].
        + intros c Hc. destruct Hwb as [Hwb | Hnone]; [| congruence].
          rewrite (Hbest c Hc). simpl.
          exact (better_trans v w b Hvw Hwb). }
    simpl. destruct best as [[hb b] |].
    + destruct (better w b) eqn:Hwb.
      * right. apply (Htake hb b); [auto | intros c [= <-]; reflexivity].
      * destruct (IH (Some (hb, b)))
          as [[Hr Hrest] | (h & v & pre & post & Hr & -> & Hpre & Hcand & Hpost)].
        -- left. split; [exact Hr |].
           intros l' w' [[= <- <-] | Hin]; [| eauto].
           exists (hb, b). split; [reflexivity | exact Hwb].
        -- right. exists h, v, ((l, Some w) :: pre), post.
           split; [exact Hr |]. split; [reflexivity |].
           split; [| split; [exact Hcand | exact Hpost]].
           intros l' w' [[= <- <-] | Hin]; [| eauto].
           exact (better_cotrans v b w (Hcand (hb, b) eq_refl) Hwb).
    + right. apply (Htake l w); [auto | discriminate].
  - (* a missing value *)
    simpl.
    destruct (IH best)
      as [[Hr Hrest] | (h & v & pre & post & Hr & -> & Hpre & Hcand & Hpost)].
    + left. split; [exact Hr |].
      intros l' w' [Heq | Hin]; [discriminate Heq | eauto].
    + right. exists h, v, ((l, None) :: pre), post.
      split; [exact Hr |]. split; [reflexivity |].
      split; [| split; [exact Hcand | exact Hpost]].
      intros l' w' [Heq | Hin]; [discriminate Heq | eauto].
Qed.

End Extremes.

Lemma Qlt_bool_trans (a b c : Q) :
  negb (Qle_bool b a) = true -> negb (Qle_bool c b) = true ->
  negb (Qle_bool c a) = true.
Proof.
  rewrite !negb_true_iff. intros H1 H2. bool_to_Q.
  apply fle_Fin_false. lra.
Qed.

Lemma Qlt_bool_cotrans (a b c : Q) :
  negb (Qle_bool b a) = true -> negb (Qle_bool b c) = false ->
  negb (Qle_bool c a) = true.
Proof.
  rewrite negb_true_iff, negb_false_iff. intros H1 H2. bool_to_Q.
  rewrite negb_true_iff. apply fle_Fin_false. lra.
Qed.

Lemma Qlt_bool_cotrans_r (a b c : Q) :
  negb (Qle_bool a b) = true -> negb (Qle_bool c b) = false ->
  negb (Qle_bool a c) = true.
Proof.
  rewrite negb_true_iff, negb_false_iff. intros H1 H2. bool_to_Q.
  rewrite negb_true_iff. apply fle_Fin_false. lra.
Qed.

Lemma idxmin_cases {L : Type} (s : list (L * option Q)) :
  (s = [] /\
   idxmin s = Raise (ValueError "attempt to get argmin of an empty sequence")) \/
  (s <> [] /\ idxmin s = Ok None /\ forall l w, ~ In (l, Some w) s) \/
  (exists h v pre post,
     idxmin s = Ok (Some h) /\
     s = (pre ++ (h, Some v) :: post)%list /\
     (forall l w, In (l, Some w) pre -> (v < w)%Q) /\
     (forall l w, In (l, Some w) post -> (v <= w)%Q)).
Proof.
  destruct s as [| c rest]; [left; split; reflexivity | right].
  unfold idxmin.
  destruct (idx_extreme_from_spec (fun v b => negb (Qle_bool b v))
              (fun a b c => Qlt_bool_trans a b c)
              (fun a b c => Qlt_bool_cotrans a b c) (c :: rest) None)
    as [[-> Hnone] | (h & v & pre & post & -> & Hs & Hpre & _ & Hpost)].
  - left. split; [discriminate |]. split; [reflexivity |].
    intros l w Hin. destruct (Hnone l w Hin) as (b & Hb & _). discriminate Hb.
  - right. exists h, v, pre, post. split; [reflexivity |].
    split; [exact Hs |]. split.
    + intros l w Hin. specialize (Hpre l w Hin).
      rewrite negb_true_iff in Hpre. bool_to_Q. exact Hpre.
    + intros l w Hin. specialize (Hpost l w Hin).
      rewrite negb_false_iff in Hpost. bool_to_Q. exact Hpost.
Qed.

Lemma idxmax_cases {L : Type} (s : list (L * option Q)) :
  (s = [] /\
   idxmax s = Raise (ValueError "attempt to get argmax of an empty sequence")) \/
  (s <> [] /\ idxmax s = Ok None /\ forall l w, ~ In (l, Some w) s) \/
  (exists h v pre post,
     idxmax s = Ok (Some h) /\
     s = (pre ++ (h, Some v) :: post)%list /\
     (forall l w, In (l, Some w) pre -> (w < v)%Q) /\
     (forall l w, In (l, Some w) post -> (w <= v)%Q)).
Proof.
  destruct s as [| c rest]; [left; split; reflexivity | right].
  unfold idxmax.
  destruct (idx_extreme_from_spec (fun v b => negb (Qle_bool v b))
              (fun a b c H1 H2 => Qlt_bool_trans c b a H2 H1)
              (fun a b c H1 H2 => Qlt_bool_cotrans_r a b c H1 H2)
              (c :: rest) None)
    as [[-> Hnone] | (h & v & pre & post & -> & Hs & Hpre & _ & Hpost)].
  - left. split; [discriminate |]. split; [reflexivity |].
    intros l w Hin. destruct (Hnone l w Hin) as (b & Hb & _). discriminate Hb.
  - right. exists h, v, pre, post. split; [reflexivity |].
    split; [exact Hs |]. split.
    + intros l w Hin. specialize (Hpre l w Hin).
      rewrite negb_true_iff in Hpre. bool_to_Q. exact Hpre.
    + intros l w Hin. specialize (Hpost l w Hin).
      rewrite negb_false_iff in Hpost. bool_to_Q. exact Hpost.
Qed.

(** X21. The best time is a first minimum.  On a series without rows
    [idxmin] raises a [ValueError]; it raises, or returns a missing label,
    only when the series has no value at all; and when it returns a label,
    the series has a value at that label which is strictly below every
    value before it and at most every value after it.  A series with a
    value always gets a label. *)
Theorem idxmin_first_minimum {L : Type} (s : list (L * option Q)) :
  (s = [] -> exists e, idxmin s = Raise e /\ exn_class e = "ValueError") /\
  ((exists l w, In (l, Some w) s) -> exists h, idxmin s = Ok (Some h)) /\
  match idxmin s with
  | Raise e => exn_class e = "ValueError" /\ forall l w, ~ In (l, Some w) s
  | Ok None => s <> [] /\ forall l w, ~ In (l, Some w) s
  | Ok (Some h) =>
      exists v pre post,
        s = (pre ++ (h, Some v) :: post)%list /\
        (forall l w, In (l, Some w) pre -> (v < w)%Q) /\
        (forall l w, In (l, Some w) post -> (v <= w)%Q)
  end.
Proof.
  destruct (idxmin_cases s)
    as [[-> Hr] | [(Hne & Hr & Hnone) |
                   (h & v & pre & post & Hr & Hs & Hpre & Hpost)]];
    rewrite Hr.
  - split; [intros _; eexists; split; reflexivity |].
    split; [intros (l & w & []) |].
    split; [reflexivity | intros l w []].
  - split; [intros Hs; contradiction |].
    split; [intros (l & w & Hin); destruct (Hnone l w Hin) |].
    split; assumption.
  - split; [intros ->; destruct pre; discriminate Hs |].
    split; [intros _; exists h; reflexivity |].
    exists v, pre, post. auto.
Qed.

(** X22. The worst time is a first maximum.  On a series without rows
    [idxmax] raises a [ValueError]; it raises, or returns a missing label,
    only when the series has no value at all; and the value at the label
    that it returns is strictly above every value before it and at least
    every value after it.  A series with a value always gets a label. *)
Theorem idxmax_first_maximum {L : Type} (s : list (L * option Q)) :
  (s = [] -> exists e, idxmax s = Raise e /\ exn_class e = "ValueError") /\
  ((exists l w, In (l, Some w) s) -> exists h, idxmax s = Ok (Some h)) /\
  match idxmax s with
  | Raise e => exn_class e = "ValueError" /\ forall l w, ~ In (l, Some w) s
  | Ok None => s <> [] /\ forall l w, ~ In (l, Some w) s
  | Ok (Some h) =>
      exists v pre post,
        s = (pre ++ (h, Some v) :: post)%list /\
        (forall l w, In (l, Some w) pre -> (w < v)%Q) /\
        (forall l w, In (l, Some w) post -> (w <= v)%Q)
  end.
Proof.
  destruct (idxmax_cases s)
    as [[-> Hr] | [(Hne & Hr & Hnone) |
                   (h & v & pre & post & Hr & Hs & Hpre & Hpost)]];
    rewrite Hr.
  - split; [intros _; eexists; split; reflexivity |].
    split; [intros (l & w & []) |].
    split; [reflexivity | intros l w []].
  - split; [intros Hs; contradiction |].
    split; [intros (l & w & Hin); destruct (Hnone l w Hin) |].
    split; assumption.
  - split; [intros ->; destruct pre; discriminate Hs |].
    split; [intros _; exists h; reflexivity |].
    exists v, pre, post. auto.
Qed.

Lemma In_reindex (means : gmap string Q) (labels : list string)
    (l : string) (w : Q) :
  In (l, Some w) (reindex means labels) <-> In l labels /\ means !! l = Some w.
Proof.
  unfold reindex. rewrite <- list_elem_of_In, list_elem_of_fmap.
  setoid_rewrite list_elem_of_In. split.
  - intros (l' & [= -> Hw] & Hin). auto.
  - intros [Hin Hw]. exists l. rewrite Hw. auto.
Qed.

(** X23. The best day is a day of the week with a mean, and no day of the
    week has a lower mean; there is no best day exactly when no day of the
    week has a mean.  The search never fails: the series always has its
    seven rows. *)
Theorem best_day_is_minimum (daily_patterns : gmap string Q) :
  match best_day daily_patterns with
  | Ok (Some d) =>
      In d day_names /\
      exists v, daily_patterns !! d = Some v /\
        forall d' v', In d' day_names -> daily_patterns !! d' = Some v' ->
                      (v <= v')%Q
  | Ok None => forall d, In d day_names -> daily_patterns !! d = None
  | Raise _ => False
  end.
Proof.
  unfold best_day.
  destruct (idxmin_cases (reindex daily_patterns day_names))
    as [[Hs _] | [(_ & -> & Hnone) |
                  (h & v & pre & post & -> & Hs & Hpre & Hpost)]].
  - discriminate Hs.
  - intros d Hd. destruct (daily_patterns !! d) as [w |] eqn:Hw; [| reflexivity].
    destruct (Hnone d w). apply In_reindex. auto.
  - assert (In (h, Some v) (reindex daily_patterns day_names)) as Hin.
    { rewrite Hs. apply in_or_app. right. left. reflexivity. }
    apply In_reindex in Hin as [Hday Hv].
    split; [exact Hday |]. exists v. split; [exact Hv |].
    intros d' v' Hd' Hv'.
    assert (In (d', Some v') (reindex daily_patterns day_names)) as Hin'
      by (apply In_reindex; auto).
    rewrite Hs in Hin'. apply in_app_or in Hin' as [Hin' | [Heq | Hin']].
    + specialize (Hpre d' v' Hin'). lra.
    + injection Heq as _ <-. lra.
    + exact (Hpost d' v' Hin').
Qed.
